(** * generate_wordlist: the native-word table of Tali Forth 2

    A shallow embedding of [tools/generate_wordlist.py].  The script reads
    the header comments of [native_words.asm] and the label map written by
    the assembler, and prints a markdown table with one row per native word.

    Conventions of the model:
    - text is [string]; a character is a code point in the range 0..255
      (the ASCII and Latin-1 part of Python's [str]);
    - Python integers are [Z];
    - the module-level dictionary [labels] is a [gmap string Z];
    - the interpreter state threaded through the functions holds the
      module globals and what has been written to standard output;
    - an exception ends the computation with the exception as its result,
      and the state reached so far is kept. *)

From Stdlib Require Import ZArith String Ascii List Lia DecimalString.
From stdpp Require Import base option gmap strings list.

Open Scope string_scope.
Open Scope Z_scope.

(** ** Text primitives of Python's [str] *)

Module Py.

(** The double-quote character and the line feed. *)
Definition dq : ascii := ascii_of_nat 34.
Definition LF : ascii := ascii_of_nat 10.
Definition CR : ascii := ascii_of_nat 13.

(** [c.isspace()] for a code point below 256: the characters TAB, LF, VT,
    FF, CR, FS, GS, RS, US, SPACE, NEL and NBSP. *)
Definition isspace (c : ascii) : bool :=
  let n := nat_of_ascii c in
  ((9 <=? n) && (n <=? 13) || (28 <=? n) && (n <=? 32)
   || (n =? 133) || (n =? 160))%nat.

(** [s.startswith(p)] *)
Fixpoint startswith (s p : string) : bool :=
  match p, s with
  | EmptyString, _ => true
  | String a p', String b s' => if Ascii.eqb a b then startswith s' p' else false
  | String _ _, EmptyString => false
  end.

(** Removal of the leading and of the trailing characters that satisfy
    [p]; [s.strip()] removes whitespace on both sides. *)
Fixpoint lstrip_by (p : ascii -> bool) (s : string) : string :=
  match s with
  | String c s' => if p c then lstrip_by p s' else s
  | EmptyString => EmptyString
  end.

Fixpoint rstrip_by (p : ascii -> bool) (s : string) : string :=
  match s with
  | String c s' =>
      match rstrip_by p s' with
      | EmptyString => if p c then EmptyString else String c EmptyString
      | r => String c r
      end
  | EmptyString => EmptyString
  end.

Definition strip (s : string) : string :=
  rstrip_by isspace (lstrip_by isspace s).

(** [s[n:]] for a non-negative [n] *)
Fixpoint slice_from (n : nat) (s : string) : string :=
  match n, s with
  | O, _ => s
  | S n', String _ s' => slice_from n' s'
  | S _, EmptyString => EmptyString
  end.

(** [s[start:stop]]: a negative index counts from the end, and both
    indices are clipped to the string. *)
Definition slice_index (len i : Z) : Z :=
  if i <? 0 then Z.max (i + len) 0 else Z.min i len.

Definition slice (start stop : Z) (s : string) : string :=
  let len := Z.of_nat (String.length s) in
  let lo := slice_index len start in
  let hi := slice_index len stop in
  substring (Z.to_nat lo) (Z.to_nat (hi - lo)) s.

(** [s.split()] and [s.split(maxsplit=n)]: runs of whitespace separate the
    words; after [maxsplit] words have been cut, the rest of the string,
    without its leading whitespace, is the last element.  [cur] is the word
    being read ([EmptyString] between words). *)
Fixpoint split_go (maxcount : option nat) (cur s : string) : list string :=
  match s with
  | EmptyString =>
      match cur with EmptyString => [] | _ => [cur] end
  | String c s' =>
      match cur with
      | EmptyString =>
          if isspace c then split_go maxcount EmptyString s'
          else match maxcount with
               | Some O => [s]
               | Some (S k) => split_go (Some k) (String c EmptyString) s'
               | None => split_go None (String c EmptyString) s'
               end
      | _ =>
          if isspace c then cur :: split_go maxcount EmptyString s'
          else split_go maxcount (cur +:+ String c EmptyString) s'
      end
  end.

Definition split (s : string) : list string := split_go None EmptyString s.
Definition split_max (maxsplit : nat) (s : string) : list string :=
  split_go (Some maxsplit) EmptyString s.

(** [s.lower()] on code points below 256: the capitals A..Z and the
    Latin-1 capitals (all of 192..222 but the multiplication sign 215). *)
Definition lower_char (c : ascii) : ascii :=
  let n := nat_of_ascii c in
  if ((65 <=? n) && (n <=? 90)
      || (192 <=? n) && (n <=? 222) && negb (n =? 215))%nat
  then ascii_of_nat (n + 32) else c.

Fixpoint lower (s : string) : string :=
  match s with
  | EmptyString => EmptyString
  | String c s' => String (lower_char c) (lower s')
  end.

(** [s.replace(old, new)] for a one-character [old] *)
Fixpoint replace (old : ascii) (new s : string) : string :=
  match s with
  | EmptyString => EmptyString
  | String c s' =>
      if Ascii.eqb c old then new +:+ replace old new s'
      else String c (replace old new s')
  end.

(** [str(n)] for an integer *)
Definition str_int (n : Z) : string := NilZero.string_of_int (Z.to_int n).

(** The value of a digit of [int(s, base)]: 0..9, then the letters in
    either case for 10..35. *)
Definition digit_value (c : ascii) : option Z :=
  let n := nat_of_ascii c in
  if ((48 <=? n) && (n <=? 57))%nat then Some (Z.of_nat n - 48)
  else if ((97 <=? n) && (n <=? 122))%nat then Some (Z.of_nat n - 87)
  else if ((65 <=? n) && (n <=? 90))%nat then Some (Z.of_nat n - 55)
  else None.

(** The digits of an integer literal: single underscores may separate
    digits, and the literal may not end in one. *)
Fixpoint int_digits (base : Z) (prev_underscore : bool) (acc : Z) (s : string)
  : option Z :=
  match s with
  | EmptyString => if prev_underscore then None else Some acc
  | String c s' =>
      if Ascii.eqb c "_" then
        if prev_underscore then None else int_digits base true acc s'
      else
        match digit_value c with
        | Some d =>
            if d <? base then int_digits base false (acc * base + d) s'
            else None
        | None => None
        end
  end.

(** The whitespace that [int] skips around a literal: TAB, LF, VT, FF, CR
    and SPACE, and the two whitespace characters above 127. *)
Definition int_isspace (c : ascii) : bool :=
  let n := nat_of_ascii c in
  ((9 <=? n) && (n <=? 13) || (n =? 32) || (n =? 133) || (n =? 160))%nat.

(** [int(s, 16)]: surrounding whitespace, an optional sign, an optional
    [0x] or [0X] (after which one underscore is allowed), then the digits.
    [None] stands for [ValueError]. *)
Definition int16 (s : string) : option Z :=
  let s0 := rstrip_by int_isspace (lstrip_by int_isspace s) in
  let '(sign, s1) :=
    match s0 with
    | String "+" r => (1, r)
    | String "-" r => (-1, r)
    | _ => (1, s0)
    end in
  let s2 :=
    match s1 with
    | String "0" (String x r) =>
        if Ascii.eqb x "x" || Ascii.eqb x "X" then
          match r with String "_" r' => r' | _ => r end
        else s1
    | _ => s1
    end in
  match s2 with
  | EmptyString => None
  | String c _ =>
      if Ascii.eqb c "_" then None
      else option_map (Z.mul sign) (int_digits 16 false 0 s2)
  end.

(** [f.readlines()] on a text file: a line ends after its line feed; the
    text layer has already turned CR and CR LF into LF ([prev_cr] says that
    the character before was a CR). *)
Fixpoint universal_newlines (prev_cr : bool) (s : string) : string :=
  match s with
  | EmptyString => EmptyString
  | String c s' =>
      if Ascii.eqb c CR then String LF (universal_newlines true s')
      else if Ascii.eqb c LF then
        if prev_cr then universal_newlines false s'
        else String LF (universal_newlines false s')
      else String c (universal_newlines false s')
  end.

Fixpoint lines_go (cur s : string) : list string :=
  match s with
  | EmptyString => match cur with EmptyString => [] | _ => [cur] end
  | String c s' =>
      if Ascii.eqb c LF then (cur +:+ String LF EmptyString) :: lines_go EmptyString s'
      else lines_go (cur +:+ String c EmptyString) s'
  end.

Definition readlines (content : string) : list string :=
  lines_go EmptyString (universal_newlines false content).

End Py.


(** ** The interpreter state and its monad *)

(** The exceptions the script can end with. *)
Inductive exn : Type :=
| KeyError (key : string)
| IndexError
| ValueError
| FileNotFoundError (path : string)
| SystemExit (code : Z).

(** The module globals [labels] and [not_tested], and the lines written to
    standard output by [print], oldest first.  There is one dictionary
    object: the global [labels], the argument [label_dict] of [get_sizes]
    and the default argument [raw_labels] of [calc_size] all name it. *)
Record state : Type := State {
  labels : gmap string Z;
  not_tested : Z;
  stdout : list string
}.

(** The state right after the module has been loaded. *)
Definition initial_state : state :=
  {| labels := ∅; not_tested := 0; stdout := [] |}.

Definition M (A : Type) : Type := state -> (exn + A) * state.

Definition ret {A} (a : A) : M A := fun st => (inr a, st).

Definition bind {A B} (c : M A) (k : A -> M B) : M B :=
  fun st =>
    match c st with
    | (inr a, st') => k a st'
    | (inl e, st') => (inl e, st')
    end.

Definition raise {A} (e : exn) : M A := fun st => (inl e, st).

Notation "'let*' x ':=' c 'in' k" := (bind c (fun x => k))
  (at level 10, x name, c at level 100, k at level 200).
Notation "c ;; k" := (bind c (fun _ => k))
  (at level 100, k at level 200, right associativity).

(** [print(line)] *)
Definition print (line : string) : M unit :=
  fun st => (inr tt, {| labels := labels st; not_tested := not_tested st;
                        stdout := (stdout st ++ [line])%list |}).

(** [l[i]] on a list, for a non-negative [i] *)
Definition getitem {A} (l : list A) (i : nat) : M A :=
  match l !! i with
  | Some x => ret x
  | None => raise IndexError
  end.

(** [labels[key]] and [labels[key] = addr] *)
Definition labels_getitem (key : string) : M Z :=
  fun st =>
    match labels st !! key with
    | Some addr => (inr addr, st)
    | None => (inl (KeyError key), st)
    end.

Definition labels_setitem (key : string) (addr : Z) : M unit :=
  fun st => (inr tt, {| labels := <[key := addr]> (labels st);
                        not_tested := not_tested st; stdout := stdout st |}).

(** [not_tested += 1] *)
Definition incr_not_tested : M unit :=
  fun st => (inr tt, {| labels := labels st; not_tested := not_tested st + 1;
                        stdout := stdout st |}).

(** A [for] loop whose body may raise *)
Fixpoint for_each {A} (body : A -> M unit) (l : list A) : M unit :=
  match l with
  | [] => ret tt
  | x :: l' => body x ;; for_each body l'
  end.

(** The files the script can see: a path gives the text of the file. *)
Definition filesystem : Type := string -> option string.

(** [with open(path) as f: raw_list = f.readlines()] *)
Definition open_readlines (fs : filesystem) (path : string) : M (list string) :=
  match fs path with
  | Some content => ret (Py.readlines content)
  | None => raise (FileNotFoundError path)
  end.

(** ** The script *)

Definition SOURCE : string := "native_words.asm".
Definition LABELS : string := "docs/py65mon-labelmap.txt".
Definition MARKER : string := "; ## ".

(** The body of the loop of [get_sizes]: a line whose third word is not a
    label of a native word is passed over ([continue]). *)
Definition get_sizes_line (line : string) : M unit :=
  let ws := Py.split line in
  let* label := getitem ws 2 in
  if negb (Py.startswith label "xt_") && negb (Py.startswith label "z_")
  then ret tt
  else
    let* w0 := getitem ws 0 in
    let addr_hex := Py.replace "$" "0x" w0 in
    match Py.int16 addr_hex with
    | None => raise ValueError
    | Some addr => labels_setitem label addr
    end.

(** [label_dict] is the global dictionary [labels], the one argument that
    [main] passes; the dictionary is changed in place and returned. *)
Definition get_sizes (fs : filesystem) : M (gmap string Z) :=
  let* raw_list := open_readlines fs LABELS in
  for_each get_sizes_line raw_list ;;
  fun st => (inr (labels st), st).

(** [raw_labels] is left at its default, the global dictionary. *)
Definition calc_size (word : string) : M Z :=
  let start := "xt_" +:+ word in
  let end_ := "z_" +:+ word in
  let* start_addr := labels_getitem start in
  let* end_addr := labels_getitem end_ in
  let size := end_addr - start_addr in
  ret size.

Definition print_intro : M unit :=
  print "# Tali Forth 2 native words" ;;
  print "This file is automatically generated by a script in `tools`." ;;
  print "Note these are not all the words in Tali Forth 2, the high-level" ;;
  print "and user-defined words coded in Forth are in `forth_code`." ;;
  print "The size in bytes includes any underflow checks, but not the" ;;
  print "RTS instruction at the end of each word." ;;
  print EmptyString.

Definition print_footer (size : Z) : M unit :=
  print EmptyString ;;
  print ("Found **" +:+ Py.str_int size
         +:+ "** native words in `native_words.asm`.") ;;
  (fun st =>
     print ("Of those, **" +:+ Py.str_int (not_tested st)
            +:+ "** are not marked as " +:+ String Py.dq "tested"
            +:+ String Py.dq ".") st) ;;
  print EmptyString.

Definition print_header : M unit :=
  print "| NAME | FORTH WORD | SOURCE | BYTES | STATUS |" ;;
  print "| :--- | :--------- | :---   | ----: | :----  |".

Definition HAVE_TEST : string := "tested".

(** [TEMPLATE.format(name, word, source, size, status)] *)
Definition TEMPLATE (name word source : string) (size : Z) (status : string)
  : string :=
  "| " +:+ name +:+ " | " +:+ word +:+ " | " +:+ source +:+ " | "
  +:+ Py.str_int size +:+ " | " +:+ status +:+ " |".

Definition print_line (fl sl : string) : M unit :=
  let l1 := Py.split (Py.slice_from (String.length MARKER) fl) in
  let l2 := Py.split_max 2 (Py.slice_from (String.length MARKER) sl) in
  let* name := getitem l1 0 in
  let* l2_0 := getitem l2 0 in
  let word := "`" +:+ Py.slice 1 (-1) l2_0 +:+ "`" in
  let* size := calc_size (Py.lower name) in
  let* status := getitem l2 1 in
  let* source := getitem l2 2 in
  (if negb (String.eqb status HAVE_TEST) then incr_not_tested else ret tt) ;;
  let status := if String.eqb status HAVE_TEST
                then "**" +:+ status +:+ "**" else status in
  print (TEMPLATE name word source size status).

(** The lines of the source that start with the marker, stripped. *)
Definition marker_lines (raw_list : list string) : list string :=
  fold_left
    (fun data_list line =>
       if Py.startswith line MARKER then (data_list ++ [Py.strip line])%list
       else data_list)
    raw_list [].

(** The [while True] loop of [main]: [use_list] is what the iterator has
    not yet given out; the loop ends when [next] finds it exhausted, at
    the first or at the second line of a pair. *)
Fixpoint main_loop (use_list : list string) : M unit :=
  match use_list with
  | first_line :: second_line :: rest =>
      print_line first_line second_line ;; main_loop rest
  | _ => ret tt
  end.

Definition main (fs : filesystem) : M unit :=
  let* raw_list := open_readlines fs SOURCE in
  let data_list := marker_lines raw_list in
  (if negb (Z.of_nat (length data_list) mod 2 =? 0)
   then print "Found odd number of lines, aborting" ;; raise (SystemExit 1)
   else ret tt) ;;
  let use_list := data_list in
  let number_of_words := Z.of_nat (length data_list) / 2 in
  let* word_labels := get_sizes fs in
  print_intro ;;
  print_header ;;
  main_loop use_list ;;
  print_footer number_of_words.

(** A run of the script in a fresh interpreter. *)
Definition run (fs : filesystem) : (exn + unit) * state :=
  main fs initial_state.

(** ** The table as the specification words it *)

Module Spec.

(** The matched lines taken two at a time, in order. *)
Fixpoint pairs (l : list string) : list (string * string) :=
  match l with
  | fl :: sl :: rest => (fl, sl) :: pairs rest
  | _ => []
  end.

(** What a comment pair says: the formal name is the first word of the
    first line after the marker; the second line after the marker gives the
    quoted alias, the status and, as the rest of the line, the source. *)
Record fields : Type := Fields {
  name : string;
  alias : string;
  status : string;
  source : string
}.

Definition pair_fields (p : string * string) : option fields :=
  match Py.split (Py.slice_from 5 (fst p)),
        Py.split_max 2 (Py.slice_from 5 (snd p)) with
  | n :: _, [a; s; src] => Some (Fields n a s src)
  | _, _ => None
  end.

(** The size of a word: the address of its end symbol minus the address of
    its start symbol, the name being lowercased. *)
Definition size_of (m : gmap string Z) (n : string) : option Z :=
  match m !! ("xt_" +:+ Py.lower n), m !! ("z_" +:+ Py.lower n) with
  | Some start_addr, Some end_addr => Some (end_addr - start_addr)
  | _, _ => None
  end.

(** A string without its first and its last character. *)
Fixpoint remove_last (s : string) : string :=
  match s with
  | EmptyString => EmptyString
  | String _ EmptyString => EmptyString
  | String c s' => String c (remove_last s')
  end.

Definition remove_first_last (s : string) : string :=
  match s with
  | EmptyString => EmptyString
  | String _ s' => remove_last s'
  end.

(** The status column: [tested] is set in bold, anything else is left. *)
Definition status_column (s : string) : string :=
  if String.eqb s "tested" then "**tested**" else s.

Definition row_text (f : fields) (size : Z) : string :=
  "| " +:+ name f +:+ " | `" +:+ remove_first_last (alias f) +:+ "` | "
  +:+ source f +:+ " | " +:+ Py.str_int size +:+ " | "
  +:+ status_column (status f) +:+ " |".

Definition table_row (m : gmap string Z) (p : string * string)
  : option string :=
  match pair_fields p with
  | Some f =>
      match size_of m (name f) with
      | Some size => Some (row_text f size)
      | None => None
      end
  | None => None
  end.

(** A pair counts as not tested when its status is anything but the
    exact word [tested]. *)
Definition counts_as_not_tested (p : string * string) : bool :=
  match pair_fields p with
  | Some f => negb (String.eqb (status f) "tested")
  | None => false
  end.

Definition not_tested_count (ps : list (string * string)) : Z :=
  Z.of_nat (length (filter (fun p => counts_as_not_tested p = true) ps)).

(** The lines around the rows, as the script prints them. *)
Definition intro_lines : list string :=
  stdout (snd (print_intro initial_state)).

Definition header_lines : list string :=
  stdout (snd (print_header initial_state)).

Definition footer_lines (total count : Z) : list string :=
  [ EmptyString;
    "Found **" +:+ Py.str_int total +:+ "** native words in `native_words.asm`.";
    "Of those, **" +:+ Py.str_int count +:+ "** are not marked as "
      +:+ String Py.dq "tested" +:+ String Py.dq ".";
    EmptyString ].

(** The marker lines of the source: the lines that start with the marker,
    in file order, and their stripped text. *)
Definition marker_prefixed (content : string) : list string :=
  filter (fun line => Py.startswith line "; ## " = true) (Py.readlines content).

Definition matched_lines (content : string) : list string :=
  map Py.strip (marker_prefixed content).

Definition marker_count (content : string) : nat :=
  length (marker_prefixed content).

(** The label field of a line of the label map: its third word. *)
Definition label_field (line : string) : option string := Py.split line !! 2%nat.

(** A label of a native word starts with [xt_] or with [z_]. *)
Definition word_label (label : string) : bool :=
  Py.startswith label "xt_" || Py.startswith label "z_".

End Spec.

(** ** Auxiliary definitions for the statements *)

(** The invariant of the dictionary: every key is a label of a word. *)
Definition only_word_labels (m : gmap string Z) : Prop :=
  forall key, is_Some (m !! key) -> Spec.word_label key = true.

(** The state after a row has been printed. *)
Definition after_row (st : state) (p : string * string) (row : string)
  : state :=
  {| labels := labels st;
     not_tested :=
       not_tested st + (if Spec.counts_as_not_tested p then 1 else 0);
     stdout := (stdout st ++ [row])%list |}.

(** The state after the rows of some pairs have been printed. *)
Definition after_rows (st : state) (ps : list (string * string))
  (rows : list string) : state :=
  {| labels := labels st;
     not_tested := not_tested st + Spec.not_tested_count ps;
     stdout := (stdout st ++ rows)%list |}.

(** The key that the size lookup misses first, if any. *)
Definition missing_key (m : gmap string Z) (word : string) : option string :=
  match m !! ("xt_" +:+ word), m !! ("z_" +:+ word) with
  | None, _ => Some ("xt_" +:+ word)
  | Some _, None => Some ("z_" +:+ word)
  | Some _, Some _ => None
  end.

(** The state in which the loop over the pairs starts. *)
Definition table_start (m : gmap string Z) : state :=
  {| labels := m; not_tested := 0;
     stdout := (Spec.intro_lines ++ Spec.header_lines)%list |}.

(** ** What a line of the label map asks of the loader *)

(** The address field of a line: its first word, read as the loader reads
    it. *)
Definition address_field (line : string) : option Z :=
  match Py.split line with
  | w0 :: _ => Py.int16 (Py.replace "$" "0x" w0)
  | [] => None
  end.

(** The entry that a line adds to the dictionary, if it adds one. *)
Definition line_entry (line : string) : option (string * Z) :=
  match Spec.label_field line, address_field line with
  | Some label, Some addr =>
      if Spec.word_label label then Some (label, addr) else None
  | _, _ => None
  end.

Definition entry_key (line : string) : option string :=
  match line_entry line with
  | Some (label, _) => Some label
  | None => None
  end.

(** The lines that the loader gets through: a third word is there, and
    when it is the label of a word the first word is an address. *)
Definition line_ok (line : string) : bool :=
  match Spec.label_field line with
  | None => false
  | Some label =>
      if Spec.word_label label
      then match address_field line with Some _ => true | None => false end
      else true
  end.

Definition load_line (m : gmap string Z) (line : string) : gmap string Z :=
  match line_entry line with
  | Some (label, addr) => <[label := addr]> m
  | None => m
  end.

(** The state with another dictionary. *)
Definition with_labels (st : state) (m : gmap string Z) : state :=
  {| labels := m; not_tested := not_tested st; stdout := stdout st |}.

(** A string of whitespace only. *)
Fixpoint all_space (s : string) : bool :=
  match s with
  | EmptyString => true
  | String c s' => Py.isspace c && all_space s'
  end.

(** A word: a string that is not empty and holds no whitespace. *)
Fixpoint no_space (s : string) : bool :=
  match s with
  | EmptyString => true
  | String c s' => negb (Py.isspace c) && no_space s'
  end.

Definition is_word (s : string) : bool :=
  match s with
  | EmptyString => false
  | String _ _ => no_space s
  end.

(** A text that starts with a character that is not whitespace. *)
Definition starts_with_text (s : string) : bool :=
  match s with
  | EmptyString => false
  | String c _ => negb (Py.isspace c)
  end.

(** An address as the label map writes it: [$] and four hexadecimal
    digits, capital or small. *)
Definition hex_digit (upper : bool) (d : Z) : ascii :=
  if d <? 10 then ascii_of_nat (48 + Z.to_nat d)
  else ascii_of_nat ((if upper then 55 else 87) + Z.to_nat d).

Definition hex4 (upper : bool) (n : Z) : string :=
  String "$"
    (String (hex_digit upper (n / 4096))
       (String (hex_digit upper (n / 256 mod 16))
          (String (hex_digit upper (n / 16 mod 16))
             (String (hex_digit upper (n mod 16)) EmptyString)))).

(** ** Example inputs *)

(** The example of the specification: the header comment of COLD and the
    two labels of its code. *)
Definition cold_source : string :=
  "; ## COLD ( -- ) " +:+ String Py.dq "Reset the Forth system"
  +:+ String Py.dq (String Py.LF
  ("; ## " +:+ String Py.dq "cold" +:+ String Py.dq "  tested  Tali Forth"
  +:+ String Py.LF EmptyString)).

Definition cold_labels : string :=
  "$0300 | xt_cold | definitions.asm:90" +:+ String Py.LF
  ("$0310 | z_cold | definitions.asm:95" +:+ String Py.LF EmptyString).

Definition fs_of (source labels : string) : filesystem := fun path =>
  if String.eqb path SOURCE then Some source
  else if String.eqb path LABELS then Some labels
  else None.

(** Two words, the second one not yet tested. *)
Definition two_words_source : string :=
  "; ## COLD ( -- ) " +:+ String Py.dq "Reset the Forth system"
  +:+ String Py.dq (String Py.LF
  ("; ## " +:+ String Py.dq "cold" +:+ String Py.dq "  tested  Tali Forth"
  +:+ String Py.LF
  ("xt_cold:" +:+ String Py.LF
  ("; ## ABORT ( -- ) " +:+ String Py.dq "Reset the Data Stack"
  +:+ String Py.dq (String Py.LF
  ("; ## " +:+ String Py.dq "abort" +:+ String Py.dq "  coded  ANS core"
  +:+ String Py.LF EmptyString)))))).

Definition two_words_labels : string :=
  "$0300 | xt_cold | definitions.asm:90" +:+ String Py.LF
  ("$0310 | z_cold | definitions.asm:95" +:+ String Py.LF
  ("$0000 | cp | definitions.asm:12" +:+ String Py.LF
  ("$0311 | xt_abort | native_words.asm:40" +:+ String Py.LF
  ("$0318 | z_abort | native_words.asm:44" +:+ String Py.LF EmptyString)))).

Definition cold_fl : string :=
  "; ## COLD ( -- ) " +:+ String Py.dq "Reset the Forth system"
  +:+ String Py.dq EmptyString.

Definition cold_sl : string :=
  "; ## " +:+ String Py.dq "cold" +:+ String Py.dq "  tested  Tali Forth".


Definition cold_map : gmap string Z :=
  <["z_cold" := 784]> (<["xt_cold" := 768]> ∅).

Definition two_words_map : gmap string Z :=
  <["z_abort" := 792]> (<["xt_abort" := 785]> cold_map).

Definition cold_row : string := "| COLD | `cold` | Tali Forth | 16 | **tested** |".
Definition abort_row : string := "| ABORT | `abort` | ANS core | 7 | coded |".

(** ** Properties of the text primitives *)

(** The primitives on the inputs of the script. *)
Example split_label_line :
  Py.split ("$0300 | xt_cold | definitions.asm:90" +:+ String Py.LF EmptyString)
  = ["$0300"; "|"; "xt_cold"; "|"; "definitions.asm:90"].
Proof. reflexivity. Qed.

Example split_max_keeps_the_rest :
  Py.split_max 2 "  a  b  c d  " = ["a"; "b"; "c d  "]
  /\ Py.split_max 2 " a b " = ["a"; "b"]
  /\ Py.split "  " = [].
Proof. repeat split; reflexivity. Qed.

Example strip_both_sides :
  Py.strip ("; ## COLD  " +:+ String Py.LF EmptyString) = "; ## COLD".
Proof. reflexivity. Qed.

Example slice_short_words :
  Py.slice 1 (-1) "abcd" = "bc" /\ Py.slice 1 (-1) "ab" = EmptyString
  /\ Py.slice 1 (-1) "a" = EmptyString.
Proof. repeat split; reflexivity. Qed.

Example int16_addresses :
  Py.int16 (Py.replace "$" "0x" "$0310") = Some 784
  /\ Py.int16 "ff" = Some 255
  /\ Py.int16 "-0x_1_f" = Some (-31)
  /\ Py.int16 "0x" = None
  /\ Py.int16 "1__0" = None
  /\ Py.int16 (Py.replace "$" "0x" "$$10") = None.
Proof. repeat split; reflexivity. Qed.

Example str_int_decimal :
  Py.str_int 0 = "0" /\ Py.str_int 16 = "16" /\ Py.str_int (-3) = "-3".
Proof. repeat split; reflexivity. Qed.

Example readlines_newlines :
  Py.readlines ("a" +:+ String Py.CR (String Py.LF ("b" +:+ String Py.CR "c")))
  = ["a" +:+ String Py.LF EmptyString; "b" +:+ String Py.LF EmptyString; "c"].
Proof. reflexivity. Qed.

Lemma append_assoc (a b c : string) : (a +:+ b) +:+ c = a +:+ (b +:+ c).
Proof.
  induction a as [|x a IH]; [reflexivity|].
  change (String x ((a +:+ b) +:+ c) = String x (a +:+ b +:+ c)).
  now rewrite IH.
Qed.

Lemma substring_0_remove_last (s : string) :
  substring 0 (String.length s - 1) s = Spec.remove_last s.
Proof.
  induction s as [|c s IH]; [reflexivity|].
  destruct s as [|d s']; [reflexivity|].
  cbn [String.length Nat.sub substring Spec.remove_last] in *.
  rewrite Nat.sub_0_r in IH. now rewrite IH.
Qed.

(** [s[1:-1]] is [s] without its first and its last character. *)
Lemma slice_1_m1 (s : string) :
  Py.slice 1 (-1) s = Spec.remove_first_last s.
Proof.
  destruct s as [|c s]; [reflexivity|].
  unfold Py.slice, Py.slice_index.
  cbn [String.length Spec.remove_first_last].
  rewrite Nat2Z.inj_succ.
  replace (1 <? 0) with false by reflexivity.
  replace (-1 <? 0) with true by reflexivity.
  replace (Z.min 1 (Z.succ (Z.of_nat (String.length s)))) with 1 by lia.
  replace (Z.max (-1 + Z.succ (Z.of_nat (String.length s))) 0)
    with (Z.of_nat (String.length s)) by lia.
  change (Z.to_nat 1) with 1%nat.
  replace (Z.to_nat (Z.of_nat (String.length s) - 1))
    with (String.length s - 1)%nat by lia.
  cbn [substring]. apply substring_0_remove_last.
Qed.

Lemma startswith_space (c : ascii) (s : string) :
  Py.isspace c = true -> Py.startswith (String c s) MARKER = false.
Proof.
  intros Hc.
  change (Py.startswith (String c s) MARKER)
    with (if Ascii.eqb ";" c then Py.startswith s " ## " else false).
  destruct (Ascii.eqb ";" c) eqn:E; [|reflexivity].
  apply Ascii.eqb_eq in E. subst c. discriminate.
Qed.

(** The loop that collects the marker lines filters on the raw line and
    strips what it keeps. *)
Lemma marker_lines_acc (raw_list acc : list string) :
  fold_left
    (fun data_list line =>
       if Py.startswith line MARKER then (data_list ++ [Py.strip line])%list
       else data_list)
    raw_list acc
  = (acc ++ map Py.strip
       (filter (fun line => Py.startswith line MARKER = true) raw_list))%list.
Proof.
  revert acc. induction raw_list as [|line l IH]; intros acc; cbn [fold_left].
  - now rewrite app_nil_r.
  - rewrite IH. rewrite filter_cons.
    destruct (Py.startswith line MARKER) eqn:E.
    + rewrite decide_True by reflexivity. cbn [map].
      now rewrite <- app_assoc.
    + rewrite decide_False by discriminate. reflexivity.
Qed.

Lemma marker_lines_filter (raw_list : list string) :
  marker_lines raw_list
  = map Py.strip
      (filter (fun line => Py.startswith line MARKER = true) raw_list).
Proof. unfold marker_lines. now rewrite marker_lines_acc. Qed.

(** ** Properties of the loader of the label map *)

Lemma only_word_labels_empty : only_word_labels ∅.
Proof. intros key [x Hx]. rewrite lookup_empty in Hx. discriminate. Qed.

Lemma only_word_labels_insert (m : gmap string Z) (key : string) (addr : Z) :
  only_word_labels m -> Spec.word_label key = true ->
  only_word_labels (<[key := addr]> m).
Proof.
  intros Hm Hk key' Hsome.
  destruct (decide (key = key')) as [->|Hne]; [assumption|].
  rewrite lookup_insert_ne in Hsome by assumption. now apply Hm.
Qed.

(** One line of the label map changes nothing but the dictionary, and
    keeps the invariant of its keys, whether it raises or not. *)
Lemma get_sizes_line_frame (line : string) (st : state) :
  let st' := snd (get_sizes_line line st) in
  not_tested st' = not_tested st /\ stdout st' = stdout st
  /\ (only_word_labels (labels st) -> only_word_labels (labels st')).
Proof.
  unfold get_sizes_line, bind, getitem.
  destruct (Py.split line !! 2%nat) as [label|]; cbn; [|tauto].
  destruct (negb (Py.startswith label "xt_") && negb (Py.startswith label "z_"))
    eqn:Hskip; cbn; [tauto|].
  destruct (Py.split line !! 0%nat) as [w0|]; cbn; [|tauto].
  destruct (Py.int16 (Py.replace "$" "0x" w0)) as [addr|]; cbn; [|tauto].
  repeat split; try reflexivity.
  intros Hm. apply only_word_labels_insert; [assumption|].
  unfold Spec.word_label.
  destruct (Py.startswith label "xt_"), (Py.startswith label "z_");
    try reflexivity; discriminate.
Qed.

Lemma get_sizes_loop_frame (raw_list : list string) (st : state) :
  let st' := snd (for_each get_sizes_line raw_list st) in
  not_tested st' = not_tested st /\ stdout st' = stdout st
  /\ (only_word_labels (labels st) -> only_word_labels (labels st')).
Proof.
  revert st. induction raw_list as [|line l IH]; intros st; cbn.
  - tauto.
  - unfold bind.
    pose proof (get_sizes_line_frame line st) as Hl. cbn in Hl.
    destruct (get_sizes_line line st) as [[e|[]] st1]; cbn in *.
    + exact Hl.
    + specialize (IH st1). cbn in IH.
      destruct Hl as (Hn & Ho & Hk), IH as (Hn' & Ho' & Hk').
      rewrite Hn', Ho', Hn, Ho. auto.
Qed.

Lemma get_sizes_frame (fs : filesystem) (st : state) :
  let r := get_sizes fs st in
  not_tested (snd r) = not_tested st /\ stdout (snd r) = stdout st
  /\ (only_word_labels (labels st) -> only_word_labels (labels (snd r)))
  /\ (forall m, fst r = inr m -> m = labels (snd r)).
Proof.
  unfold get_sizes, open_readlines, bind.
  destruct (fs LABELS) as [content|]; cbn.
  - pose proof (get_sizes_loop_frame (Py.readlines content) st) as H.
    cbn in H.
    destruct (for_each get_sizes_line (Py.readlines content) st)
      as [[e|[]] st1]; cbn in *.
    + repeat split; try tauto. intros m Hm. discriminate.
    + repeat split; try tauto. intros m Hm. now inversion Hm.
  - repeat split; try tauto. intros m Hm. discriminate.
Qed.

(** A line with a third word that is not a label of a word is passed
    over: no exception, and the state is left as it was. *)
Lemma get_sizes_line_skip (line label : string) (st : state) :
  Spec.label_field line = Some label -> Spec.word_label label = false ->
  get_sizes_line line st = (inr tt, st).
Proof.
  unfold Spec.label_field, Spec.word_label, get_sizes_line, bind, getitem.
  intros -> Hw. cbn.
  apply orb_false_iff in Hw as [-> ->]. reflexivity.
Qed.

(** ** Properties of the row printer *)

Lemma calc_size_spec (word : string) (st : state) :
  calc_size word st =
  match labels st !! ("xt_" +:+ word), labels st !! ("z_" +:+ word) with
  | Some start_addr, Some end_addr => (inr (end_addr - start_addr), st)
  | None, _ => (inl (KeyError ("xt_" +:+ word)), st)
  | Some _, None => (inl (KeyError ("z_" +:+ word)), st)
  end.
Proof.
  unfold calc_size, bind, labels_getitem, ret.
  destruct (labels st !! ("xt_" +:+ word)); [|reflexivity].
  destruct (labels st !! ("z_" +:+ word)); reflexivity.
Qed.

Lemma template_row_text (f : Spec.fields) (size : Z) :
  TEMPLATE (Spec.name f)
    ("`" +:+ Py.slice 1 (-1) (Spec.alias f) +:+ "`") (Spec.source f) size
    (if String.eqb (Spec.status f) HAVE_TEST
     then "**" +:+ Spec.status f +:+ "**" else Spec.status f)
  = Spec.row_text f size.
Proof.
  unfold TEMPLATE, Spec.row_text, Spec.status_column, HAVE_TEST.
  rewrite slice_1_m1.
  destruct (String.eqb (Spec.status f) "tested") eqn:E.
  - apply String.eqb_eq in E. rewrite E.
    rewrite !append_assoc. reflexivity.
  - rewrite !append_assoc. reflexivity.
Qed.

(** A pair with its fields and its two symbols is printed as the row of
    the specification, and counted when its status is not [tested]. *)
Lemma print_line_row (fl sl : string) (st : state) (f : Spec.fields) (size : Z) :
  Spec.pair_fields (fl, sl) = Some f ->
  Spec.size_of (labels st) (Spec.name f) = Some size ->
  print_line fl sl st = (inr tt, after_row st (fl, sl) (Spec.row_text f size)).
Proof.
  intros Hf Hs.
  unfold after_row, Spec.counts_as_not_tested. rewrite Hf.
  unfold Spec.pair_fields in Hf. cbn [fst snd] in Hf.
  unfold print_line.
  change (String.length MARKER) with 5%nat.
  destruct (Py.split (Py.slice_from 5 fl)) as [|n l1]; [discriminate|].
  destruct (Py.split_max 2 (Py.slice_from 5 sl)) as [|a [|s [|src [|x l2]]]];
    try discriminate.
  inversion Hf; subst f; clear Hf. cbn [Spec.name Spec.status] in *.
  unfold Spec.size_of in Hs.
  unfold bind at 1. cbn [getitem lookup list_lookup]. unfold ret at 1.
  unfold bind at 1. unfold ret at 1.
  unfold bind at 1. rewrite calc_size_spec.
  destruct (labels st !! ("xt_" +:+ Py.lower n)) as [a0|]; [|discriminate].
  destruct (labels st !! ("z_" +:+ Py.lower n)) as [b0|]; [|discriminate].
  inversion Hs; subst size; clear Hs.
  unfold bind, ret, incr_not_tested, print. cbn.
  pose proof (template_row_text (Spec.Fields n a s src) (b0 - a0)) as Ht.
  cbn [Spec.name Spec.alias Spec.status Spec.source] in Ht.
  unfold HAVE_TEST in *.
  destruct (String.eqb s "tested"); cbn; rewrite Ht;
    [rewrite Z.add_0_r; destruct st|]; reflexivity.
Qed.

(** ** Properties of the loop over the pairs *)

Lemma not_tested_count_cons (p : string * string) (ps : list (string * string)) :
  Spec.not_tested_count (p :: ps)
  = (if Spec.counts_as_not_tested p then 1 else 0) + Spec.not_tested_count ps.
Proof.
  unfold Spec.not_tested_count. rewrite filter_cons.
  destruct (Spec.counts_as_not_tested p).
  - rewrite decide_True by reflexivity. cbn [length]. lia.
  - rewrite decide_False by discriminate. lia.
Qed.

Lemma pairs_cons_inv (dl : list string) (p : string * string)
  (ps : list (string * string)) :
  Spec.pairs dl = p :: ps ->
  exists dl', dl = fst p :: snd p :: dl' /\ Spec.pairs dl' = ps.
Proof.
  destruct dl as [|fl [|sl dl']]; cbn; try discriminate.
  intros H. inversion H; subst. now exists dl'.
Qed.

Lemma pairs_nil_inv (dl : list string) (st : state) :
  Spec.pairs dl = [] -> main_loop dl st = (inr tt, st).
Proof. destruct dl as [|fl [|sl dl']]; cbn; [reflexivity..|discriminate]. Qed.

(** The loop prints the rows of a run of good pairs one after the other
    and goes on with what follows them. *)
Lemma main_loop_good (good : list (string * string)) :
  forall (rows : list string) (dl : list string) (st : state)
         (rest : list (string * string)),
    Spec.pairs dl = (good ++ rest)%list ->
    Forall2 (fun p r => Spec.table_row (labels st) p = Some r) good rows ->
    exists dl', Spec.pairs dl' = rest
                /\ main_loop dl st = main_loop dl' (after_rows st good rows).
Proof.
  induction good as [|p good IH]; intros rows dl st rest Hp Hrows.
  - inversion Hrows; subst. exists dl. split; [exact Hp|].
    unfold after_rows, Spec.not_tested_count. cbn.
    rewrite Z.add_0_r, app_nil_r. now destruct st.
  - inversion Hrows as [|p' r good' rows' Hr Hrows']; subst.
    cbn [app] in Hp. apply pairs_cons_inv in Hp as (dl1 & -> & Hp1).
    unfold Spec.table_row in Hr.
    destruct (Spec.pair_fields p) as [f|] eqn:Hf; [|discriminate].
    destruct (Spec.size_of (labels st) (Spec.name f)) as [size|] eqn:Hs;
      [|discriminate].
    inversion Hr; subst r; clear Hr.
    destruct p as [fl sl]. cbn [fst snd].
    destruct (IH rows' dl1 (after_row st (fl, sl) (Spec.row_text f size)) rest
                Hp1 Hrows') as (dl' & Hdl' & Hloop).
    exists dl'. split; [exact Hdl'|].
    cbn [main_loop]. unfold bind at 1.
    rewrite (print_line_row fl sl st f size Hf Hs), Hloop.
    f_equal. unfold after_rows, after_row. cbn [labels not_tested stdout].
    rewrite not_tested_count_cons, <- app_assoc, Z.add_assoc. reflexivity.
Qed.

(** A pair that reaches the size lookup with a symbol missing raises the
    key error and leaves the state as it was. *)
Lemma print_line_missing (fl sl n a key : string) (l1 l2 : list string)
  (st : state) :
  Py.split (Py.slice_from 5 fl) = n :: l1 ->
  Py.split_max 2 (Py.slice_from 5 sl) = a :: l2 ->
  missing_key (labels st) (Py.lower n) = Some key ->
  print_line fl sl st = (inl (KeyError key), st).
Proof.
  intros H1 H2 Hk. unfold print_line.
  change (String.length MARKER) with 5%nat. rewrite H1, H2.
  unfold bind at 1. cbn [getitem lookup list_lookup]. unfold ret at 1.
  unfold bind at 1. unfold ret at 1.
  unfold bind at 1. rewrite calc_size_spec.
  unfold missing_key in Hk.
  destruct (labels st !! ("xt_" +:+ Py.lower n)).
  - destruct (labels st !! ("z_" +:+ Py.lower n)); [discriminate|].
    now inversion Hk.
  - now inversion Hk.
Qed.

(** ** Properties of the lines around the table *)

Lemma print_intro_spec (st : state) :
  print_intro st
  = (inr tt, {| labels := labels st; not_tested := not_tested st;
                stdout := (stdout st ++ Spec.intro_lines)%list |}).
Proof.
  unfold print_intro, bind, print. cbn -[Spec.intro_lines].
  rewrite <- !app_assoc. reflexivity.
Qed.

Lemma print_header_spec (st : state) :
  print_header st
  = (inr tt, {| labels := labels st; not_tested := not_tested st;
                stdout := (stdout st ++ Spec.header_lines)%list |}).
Proof.
  unfold print_header, bind, print. cbn -[Spec.header_lines].
  rewrite <- !app_assoc. reflexivity.
Qed.

Lemma print_footer_spec (size : Z) (st : state) :
  print_footer size st
  = (inr tt, {| labels := labels st; not_tested := not_tested st;
                stdout := (stdout st
                           ++ Spec.footer_lines size (not_tested st))%list |}).
Proof.
  unfold print_footer, bind, print. cbn -[Py.str_int].
  rewrite <- !app_assoc. reflexivity.
Qed.

(** ** Properties of [main] *)

Lemma marker_lines_matched (content : string) :
  marker_lines (Py.readlines content) = Spec.matched_lines content.
Proof. apply marker_lines_filter. Qed.

Lemma matched_lines_length (content : string) :
  length (Spec.matched_lines content) = Spec.marker_count content.
Proof. unfold Spec.matched_lines, Spec.marker_count. apply length_map. Qed.

Lemma parity_test (n : nat) : (Z.of_nat n mod 2 =? 0) = Nat.even n.
Proof.
  rewrite <- Zeven_mod.
  destruct (Nat.even n) eqn:E.
  - apply Nat.even_spec in E as [k ->]. rewrite Nat2Z.inj_mul.
    apply Z.even_spec. now exists (Z.of_nat k).
  - rewrite <- Nat.negb_odd in E. apply negb_false_iff in E.
    apply Nat.odd_spec in E as [k ->].
    rewrite <- Z.negb_odd. apply negb_false_iff, Z.odd_spec.
    exists (Z.of_nat k). lia.
Qed.

Lemma pairs_length (dl : list string) :
  length (Spec.pairs dl) = Nat.div2 (length dl).
Proof.
  assert (H : forall l : list string,
             length (Spec.pairs l) = Nat.div2 (length l)
             /\ forall a, length (Spec.pairs (a :: l)) = Nat.div2 (S (length l))).
  { induction l as [|b l [IH1 IH2]].
    - split; [reflexivity|]. intros a. reflexivity.
    - split; [apply IH2|]. intros a. cbn [Spec.pairs length Nat.div2].
      now rewrite IH1. }
  apply H.
Qed.

Lemma half_of_even (n : nat) :
  Nat.even n = true -> (2 * Nat.div2 n = n)%nat /\ Z.of_nat n / 2 = Z.of_nat (Nat.div2 n).
Proof.
  intros E. pose proof (Nat.div2_odd n) as H.
  rewrite <- Nat.negb_even, E in H. cbn [negb Nat.b2n] in H.
  split; [lia|]. rewrite H at 1. rewrite Nat2Z.inj_add, Nat2Z.inj_mul.
  cbn [Z.of_nat]. rewrite Z.add_0_r, Z.mul_comm. apply Z.div_mul. lia.
Qed.

(** With an even number of marker lines and a label map that loads, a run
    is the loop over the matched lines followed by the footer, started
    after the introduction and the header. *)
Lemma run_even (fs : filesystem) (src : string) (m : gmap string Z) :
  fs SOURCE = Some src ->
  Nat.even (Spec.marker_count src) = true ->
  fst (get_sizes fs initial_state) = inr m ->
  run fs
  = (main_loop (Spec.matched_lines src) ;;
     print_footer (Z.of_nat (Spec.marker_count src) / 2)) (table_start m).
Proof.
  intros Hsrc Heven Hm. unfold run, main.
  unfold bind at 1. unfold open_readlines. rewrite Hsrc. unfold ret at 1.
  rewrite marker_lines_matched, matched_lines_length.
  unfold bind at 1. rewrite parity_test, Heven. cbn [negb]. unfold ret at 1.
  unfold bind at 1.
  pose proof (get_sizes_frame fs initial_state) as (Hn & Ho & _ & Hl).
  destruct (get_sizes fs initial_state) as [[e|m'] st1]; cbn in Hm;
    [discriminate|].
  inversion Hm; subst m'; clear Hm. cbn [fst snd] in *.
  specialize (Hl m eq_refl).
  unfold bind at 1. rewrite print_intro_spec.
  unfold bind at 1. rewrite print_header_spec.
  cbn [labels not_tested stdout]. rewrite Hn, Ho, <- Hl.
  cbn [initial_state not_tested stdout app]. reflexivity.
Qed.

(** A run on well-formed input: every pair has its fields and its two
    symbols. *)
Lemma run_table (fs : filesystem) (src : string) (m : gmap string Z)
  (rows : list string) :
  fs SOURCE = Some src ->
  Nat.even (Spec.marker_count src) = true ->
  fst (get_sizes fs initial_state) = inr m ->
  mapM (Spec.table_row m) (Spec.pairs (Spec.matched_lines src)) = Some rows ->
  let count := Spec.not_tested_count (Spec.pairs (Spec.matched_lines src)) in
  run fs
  = (inr tt,
     {| labels := m; not_tested := count;
        stdout := (Spec.intro_lines ++ Spec.header_lines ++ rows
                   ++ Spec.footer_lines (Z.of_nat (length rows)) count)%list |})
  /\ (2 * length rows = Spec.marker_count src)%nat.
Proof.
  intros Hsrc Heven Hm Hrows count.
  apply mapM_Some in Hrows.
  pose proof (Forall2_length _ _ _ Hrows) as Hlen.
  rewrite pairs_length, matched_lines_length in Hlen.
  destruct (half_of_even _ Heven) as [Hhalf Hdiv].
  split; [|lia].
  rewrite (run_even fs src m Hsrc Heven Hm).
  destruct (main_loop_good (Spec.pairs (Spec.matched_lines src)) rows
              (Spec.matched_lines src) (table_start m) []) as (dl' & Hdl' & Hloop).
  - now rewrite app_nil_r.
  - exact Hrows.
  - unfold bind. rewrite Hloop, (pairs_nil_inv dl' _ Hdl').
    rewrite print_footer_spec. unfold after_rows, table_start.
    cbn [labels not_tested stdout]. fold count.
    rewrite Hdiv, Hlen, Z.add_0_l, <- !app_assoc. reflexivity.
Qed.

(** ** Two facts about the words of the specification *)

(** What the count of the specification counts. *)
Lemma counts_as_not_tested_iff (p : string * string) :
  Spec.counts_as_not_tested p = true
  <-> exists f, Spec.pair_fields p = Some f /\ Spec.status f <> "tested".
Proof.
  unfold Spec.counts_as_not_tested. split.
  - destruct (Spec.pair_fields p) as [f|]; [|discriminate].
    intros H. exists f. split; [reflexivity|].
    apply negb_true_iff in H. now apply String.eqb_neq.
  - intros (f & -> & H). apply negb_true_iff. now apply String.eqb_neq.
Qed.

(** The comparison with [tested] is exact: another spelling counts. *)
Example near_miss_counts_as_not_tested :
  Spec.counts_as_not_tested
    ("; ## DUP ( u -- u u )", "; ## <dup> Tested ANS core") = true
  /\ Spec.counts_as_not_tested
       ("; ## DUP ( u -- u u )", "; ## <dup> tested ANS core") = false.
Proof. split; reflexivity. Qed.

Lemma remove_last_snoc (mid : string) (d : ascii) :
  Spec.remove_last (mid +:+ String d EmptyString) = mid.
Proof.
  induction mid as [|c mid IH]; [reflexivity|].
  change (String c mid +:+ String d EmptyString)
    with (String c (mid +:+ String d EmptyString)).
  cbn [Spec.remove_last]. rewrite IH.
  destruct mid; reflexivity.
Qed.

(** ** The claims *)



(** C2: when the number of marker lines is even, the label map loads and
    every pair has its fields and its symbols, the run prints, between the
    header and the footer, exactly one row per pair, in the order of the
    pairs in the source; the rows are half as many as the marker lines. *)
Theorem rows_follow_the_pairs (fs : filesystem) (src : string)
  (m : gmap string Z) (rows : list string) :
  fs SOURCE = Some src ->
  Nat.even (Spec.marker_count src) = true ->
  fst (get_sizes fs initial_state) = inr m ->
  mapM (Spec.table_row m) (Spec.pairs (Spec.matched_lines src)) = Some rows ->
  fst (run fs) = inr tt
  /\ stdout (snd (run fs))
     = (Spec.intro_lines ++ Spec.header_lines ++ rows
        ++ Spec.footer_lines (Z.of_nat (length rows))
             (not_tested (snd (run fs))))%list
  /\ (2 * length rows = Spec.marker_count src)%nat
  /\ (forall i p, Spec.pairs (Spec.matched_lines src) !! i = Some p ->
                  exists r, rows !! i = Some r /\ Spec.table_row m p = Some r).
Proof.
  intros Hsrc Heven Hm Hrows.
  destruct (run_table fs src m rows Hsrc Heven Hm Hrows) as [Hrun Hlen].
  rewrite Hrun. cbn [fst snd stdout].
  split; [reflexivity|]. split; [reflexivity|]. split; [exact Hlen|].
  intros i p Hp. apply mapM_Some in Hrows.
  destruct (Forall2_lookup_l _ _ _ _ _ Hrows Hp) as (r & Hr & Hrow). eauto.
Qed.

Lemma rows_follow_the_pairs_witness :
  fst (run (fs_of two_words_source two_words_labels)) = inr tt
  /\ stdout (snd (run (fs_of two_words_source two_words_labels)))
     = (Spec.intro_lines ++ Spec.header_lines ++ [cold_row; abort_row]
        ++ Spec.footer_lines (Z.of_nat (length [cold_row; abort_row]))
             (not_tested
                (snd (run (fs_of two_words_source two_words_labels)))))%list
  /\ (2 * length [cold_row; abort_row] = Spec.marker_count two_words_source)%nat
  /\ (forall i p,
        Spec.pairs (Spec.matched_lines two_words_source) !! i = Some p ->
        exists r, [cold_row; abort_row] !! i = Some r
                  /\ Spec.table_row two_words_map p = Some r).
Proof.
  apply (rows_follow_the_pairs (fs_of two_words_source two_words_labels)
           two_words_source two_words_map [cold_row; abort_row]);
    vm_compute; reflexivity.
Defined.

(** C3: on a well-formed run the counter of words that are not tested ends
    as the number of pairs whose status word differs from the exact word
    [tested] (compared as strings, case and all), and the footer on the
    output prints that number; the output holds, between the header and
    the footer, one row per pair, and the row of a pair shows the status
    [tested] in bold and any other status as it is. *)
Theorem footer_counts_other_than_tested (fs : filesystem) (src : string)
  (m : gmap string Z) (rows : list string) :
  fs SOURCE = Some src ->
  Nat.even (Spec.marker_count src) = true ->
  fst (get_sizes fs initial_state) = inr m ->
  mapM (Spec.table_row m) (Spec.pairs (Spec.matched_lines src)) = Some rows ->
  let ps := Spec.pairs (Spec.matched_lines src) in
  let count :=
    Z.of_nat
      (length
         (filter
            (fun p =>
               match Spec.pair_fields p with
               | Some f => negb (String.eqb (Spec.status f) "tested")
               | None => false
               end = true) ps)) in
  not_tested (snd (run fs)) = count
  /\ exists printed,
       stdout (snd (run fs))
       = (Spec.intro_lines ++ Spec.header_lines ++ printed
          ++ [ EmptyString;
               "Found **" +:+ Py.str_int (Z.of_nat (length printed))
               +:+ "** native words in `native_words.asm`.";
               "Of those, **" +:+ Py.str_int count
               +:+ "** are not marked as " +:+ String Py.dq "tested"
               +:+ String Py.dq ".";
               EmptyString ])%list
       /\ length printed = length ps
       /\ (forall i p, ps !! i = Some p ->
             exists f size,
               Spec.pair_fields p = Some f
               /\ Spec.size_of m (Spec.name f) = Some size
               /\ printed !! i
                  = Some ("| " +:+ Spec.name f +:+ " | `"
                          +:+ Spec.remove_first_last (Spec.alias f) +:+ "` | "
                          +:+ Spec.source f +:+ " | " +:+ Py.str_int size
                          +:+ " | "
                          +:+ (if String.eqb (Spec.status f) "tested"
                               then "**tested**" else Spec.status f)
                          +:+ " |")).
Proof.
  intros Hsrc Heven Hm Hrows ps count.
  destruct (run_table fs src m rows Hsrc Heven Hm Hrows) as [Hrun _].
  rewrite Hrun. cbn [fst snd stdout not_tested].
  split; [reflexivity|]. exists rows.
  apply mapM_Some in Hrows. split; [reflexivity|].
  split; [symmetry; exact (Forall2_length _ _ _ Hrows)|].
  intros i p Hp.
  destruct (Forall2_lookup_l _ _ _ _ _ Hrows Hp) as (r & Hr & Hrow).
  unfold Spec.table_row in Hrow.
  destruct (Spec.pair_fields p) as [f|]; [|discriminate].
  destruct (Spec.size_of m (Spec.name f)) as [size|] eqn:Hsize;
    [|discriminate].
  exists f, size. split; [reflexivity|].
  split; [first [reflexivity | exact Hsize]|].
  rewrite Hr. inversion Hrow. reflexivity.
Qed.

Lemma footer_counts_other_than_tested_witness :
  not_tested (snd (run (fs_of two_words_source two_words_labels))) = 1
  /\ exists printed,
       stdout (snd (run (fs_of two_words_source two_words_labels)))
       = (Spec.intro_lines ++ Spec.header_lines ++ printed
          ++ [ EmptyString;
               "Found **" +:+ Py.str_int (Z.of_nat (length printed))
               +:+ "** native words in `native_words.asm`.";
               "Of those, **1** are not marked as " +:+ String Py.dq "tested"
               +:+ String Py.dq ".";
               EmptyString ])%list
       /\ length printed = 2%nat
       /\ printed !! 0%nat = Some cold_row
       /\ printed !! 1%nat = Some abort_row.
Proof.
  destruct (footer_counts_other_than_tested
              (fs_of two_words_source two_words_labels)
              two_words_source two_words_map [cold_row; abort_row])
    as (Hcount & printed & Hout & Hlen & Hrow); try (vm_compute; reflexivity).
  split; [exact Hcount|]. exists printed.
  split; [exact Hout|]. split; [exact Hlen|].
  destruct (Hrow 0%nat (cold_fl, cold_sl) eq_refl) as (f0 & s0 & Hf0 & Hs0 & H0).
  destruct (Hrow 1%nat
              ("; ## ABORT ( -- ) " +:+ String Py.dq "Reset the Data Stack"
               +:+ String Py.dq EmptyString,
               "; ## " +:+ String Py.dq "abort" +:+ String Py.dq "  coded  ANS core")
              eq_refl) as (f1 & s1 & Hf1 & Hs1 & H1).
  vm_compute in Hf0, Hf1. inversion Hf0; subst f0. inversion Hf1; subst f1.
  vm_compute in Hs0, Hs1. inversion Hs0; subst s0. inversion Hs1; subst s1.
  split; [exact H0 | exact H1].
Defined.

(** C4: with an odd number of marker lines the run prints the one line
    [Found odd number of lines, aborting] and ends with exit status 1;
    nothing else is printed: no introduction, no header, no row and no
    footer.  The label map is not even opened. *)
Theorem odd_count_aborts (fs : filesystem) (src : string) :
  fs SOURCE = Some src ->
  Nat.odd (Spec.marker_count src) = true ->
  run fs
  = (inl (SystemExit 1),
     {| labels := ∅; not_tested := 0;
        stdout := ["Found odd number of lines, aborting"] |}).
Proof.
  intros Hsrc Hodd. unfold run, main.
  unfold bind at 1. unfold open_readlines. rewrite Hsrc. unfold ret at 1.
  rewrite marker_lines_matched, matched_lines_length.
  unfold bind at 1. rewrite parity_test, <- Nat.negb_odd, Hodd.
  reflexivity.
Qed.

Lemma odd_count_aborts_witness :
  run (fs_of (two_words_source +:+ "; ## DROP ( u -- )") two_words_labels)
  = (inl (SystemExit 1),
     {| labels := ∅; not_tested := 0;
        stdout := ["Found odd number of lines, aborting"] |}).
Proof.
  apply (odd_count_aborts _ (two_words_source +:+ "; ## DROP ( u -- )"));
    vm_compute; reflexivity.
Defined.

(** C5, as the specification has it, fails on a line that has no third
    word: the blank line has no label field at all, let alone one with a
    prefix of a word label, yet the loader raises an index error on it
    instead of passing over it. *)
Lemma blank_line_is_not_skipped :
  let line := String Py.LF EmptyString in
  (forall label, Spec.label_field line = Some label ->
                 Spec.word_label label = false)
  /\ get_sizes_line line initial_state = (inl IndexError, initial_state)
  /\ fst (run (fs_of cold_source (cold_labels +:+ line))) = inl IndexError.
Proof.
  split; [|split].
  - intros label H. discriminate H.
  - reflexivity.
  - vm_compute. reflexivity.
Qed.

(** C5, amended: a line of the label map with at least three words whose
    third word starts neither with [xt_] nor with [z_] is passed over: no
    exception is raised and nothing changes, whatever the rest of the
    line looks like; and the mapping that the loader builds from the empty
    dictionary holds only labels with one of the two prefixes. *)
Theorem lines_without_word_label_are_skipped (line label : string)
  (st : state) (fs : filesystem) :
  Spec.label_field line = Some label ->
  Py.startswith label "xt_" = false ->
  Py.startswith label "z_" = false ->
  get_sizes_line line st = (inr tt, st)
  /\ (forall key addr,
        labels (snd (get_sizes fs initial_state)) !! key = Some addr ->
        Py.startswith key "xt_" = true \/ Py.startswith key "z_" = true).
Proof.
  intros Hl Hxt Hz. split.
  - apply (get_sizes_line_skip line label st Hl).
    unfold Spec.word_label. now rewrite Hxt, Hz.
  - intros key addr Hkey.
    destruct (get_sizes_frame fs initial_state) as (_ & _ & Hinv & _).
    specialize (Hinv only_word_labels_empty key (ex_intro _ addr Hkey)).
    unfold Spec.word_label in Hinv. now apply orb_true_iff in Hinv.
Qed.

Lemma lines_without_word_label_are_skipped_witness :
  get_sizes_line "$0000 | cp | definitions.asm:12" initial_state
  = (inr tt, initial_state)
  /\ (forall key addr,
        labels (snd (get_sizes (fs_of two_words_source two_words_labels)
                       initial_state)) !! key = Some addr ->
        Py.startswith key "xt_" = true \/ Py.startswith key "z_" = true).
Proof.
  apply (lines_without_word_label_are_skipped
           "$0000 | cp | definitions.asm:12" "cp"); reflexivity.
Defined.

(** C6: when the symbol [xt_<name>] or the symbol [z_<name>] is not in the
    mapping, the size lookup raises a key error and gives no size.  In a
    run, the first pair that reaches the lookup with a symbol missing ends
    the run with that key error: the rows of the pairs before it stay on
    the output, after the introduction and the header, and neither the row
    of the failing pair nor the footer is printed. *)
Theorem missing_symbol_aborts (fs : filesystem) (src : string)
  (m : gmap string Z) (good rest : list (string * string))
  (rows : list string) (fl sl n a : string) (l1 l2 : list string) :
  fs SOURCE = Some src ->
  Nat.even (Spec.marker_count src) = true ->
  fst (get_sizes fs initial_state) = inr m ->
  Spec.pairs (Spec.matched_lines src) = (good ++ (fl, sl) :: rest)%list ->
  mapM (Spec.table_row m) good = Some rows ->
  Py.split (Py.slice_from 5 fl) = n :: l1 ->
  Py.split_max 2 (Py.slice_from 5 sl) = a :: l2 ->
  m !! ("xt_" +:+ Py.lower n) = None \/ m !! ("z_" +:+ Py.lower n) = None ->
  exists key,
    (key = "xt_" +:+ Py.lower n \/ key = "z_" +:+ Py.lower n)
    /\ m !! key = None
    /\ (forall st, labels st = m ->
                   calc_size (Py.lower n) st = (inl (KeyError key), st))
    /\ run fs
       = (inl (KeyError key),
          {| labels := m; not_tested := Spec.not_tested_count good;
             stdout := (Spec.intro_lines ++ Spec.header_lines ++ rows)%list |}).
Proof.
  intros Hsrc Heven Hm Hpairs Hrows H1 H2 Habsent.
  assert (Hkey : exists key,
             (key = "xt_" +:+ Py.lower n \/ key = "z_" +:+ Py.lower n)
             /\ m !! key = None /\ missing_key m (Py.lower n) = Some key).
  { unfold missing_key.
    destruct (m !! ("xt_" +:+ Py.lower n)) eqn:Ex.
    - destruct (m !! ("z_" +:+ Py.lower n)) eqn:Ez.
      + destruct Habsent; discriminate.
      + exists ("z_" +:+ Py.lower n). auto.
    - exists ("xt_" +:+ Py.lower n). auto. }
  destruct Hkey as (key & Hwhich & Hnone & Hmiss).
  exists key. split; [exact Hwhich|]. split; [exact Hnone|]. split.
  - intros st <-. rewrite calc_size_spec. unfold missing_key in Hmiss.
    destruct (labels st !! ("xt_" +:+ Py.lower n));
      [destruct (labels st !! ("z_" +:+ Py.lower n)); [discriminate|]|];
      now inversion Hmiss.
  - rewrite (run_even fs src m Hsrc Heven Hm).
    apply mapM_Some in Hrows.
    destruct (main_loop_good good rows (Spec.matched_lines src)
                (table_start m) ((fl, sl) :: rest) Hpairs Hrows)
      as (dl' & Hdl' & Hloop).
    apply pairs_cons_inv in Hdl' as (dl2 & -> & _). cbn [fst snd] in Hloop.
    unfold bind at 1. rewrite Hloop. cbn [main_loop]. unfold bind at 1.
    rewrite (print_line_missing fl sl n a key l1 l2
               (after_rows (table_start m) good rows) H1 H2 Hmiss).
    unfold after_rows, table_start. cbn [labels not_tested stdout].
    rewrite Z.add_0_l, <- app_assoc. reflexivity.
Qed.

Lemma missing_symbol_aborts_witness :
  exists key,
    (key = "xt_" +:+ Py.lower "ABORT" \/ key = "z_" +:+ Py.lower "ABORT")
    /\ cold_map !! key = None
    /\ (forall st, labels st = cold_map ->
                   calc_size (Py.lower "ABORT") st = (inl (KeyError key), st))
    /\ run (fs_of two_words_source cold_labels)
       = (inl (KeyError key),
          {| labels := cold_map;
             not_tested := Spec.not_tested_count [(cold_fl, cold_sl)];
             stdout := (Spec.intro_lines ++ Spec.header_lines
                        ++ [cold_row])%list |}).
Proof.
  apply (missing_symbol_aborts (fs_of two_words_source cold_labels)
           two_words_source cold_map [(cold_fl, cold_sl)] [] [cold_row]
           ("; ## ABORT ( -- ) " +:+ String Py.dq "Reset the Data Stack"
            +:+ String Py.dq EmptyString)
           ("; ## " +:+ String Py.dq "abort" +:+ String Py.dq "  coded  ANS core")
           "ABORT" (String Py.dq "abort" +:+ String Py.dq EmptyString)
           ["("; "--"; ")"; String Py.dq "Reset"; "the"; "Data";
            "Stack" +:+ String Py.dq EmptyString]
           ["coded"; "ANS core"]);
    try (vm_compute; reflexivity).
  left. vm_compute. reflexivity.
Defined.

(** C7: the example of the specification.  The header comment of COLD with
    the labels [xt_cold] at 0x0300 and [z_cold] at 0x0310 gives the one row
    [| COLD | `cold` | Tali Forth | 16 | **tested** |], and the counter of
    words that are not tested stays at zero. *)
Theorem cold_example :
  run (fs_of cold_source cold_labels)
  = (inr tt,
     {| labels := cold_map; not_tested := 0;
        stdout := (Spec.intro_lines ++ Spec.header_lines
                   ++ ["| COLD | `cold` | Tali Forth | 16 | **tested** |"]
                   ++ Spec.footer_lines 1 0)%list |})
  /\ print_line cold_fl cold_sl (table_start cold_map)
     = (inr tt,
        {| labels := cold_map; not_tested := 0;
           stdout := (stdout (table_start cold_map)
                      ++ ["| COLD | `cold` | Tali Forth | 16 | **tested** |"])%list |}).
Proof. split; vm_compute; reflexivity. Qed.

(** C9: the marker is looked for at the very start of the raw line, and a
    line is stripped only once it has matched; so a line that has the
    marker after some leading whitespace is not among the matched lines. *)
Theorem indented_marker_line_is_excluded (before after : list string)
  (c : ascii) (indent rest : string) :
  Py.isspace c = true ->
  let line := String c indent +:+ MARKER +:+ rest in
  Py.startswith line MARKER = false
  /\ marker_lines (before ++ line :: after) = marker_lines (before ++ after)
  /\ (forall raw_list,
        marker_lines raw_list
        = map Py.strip
            (filter (fun l => Py.startswith l MARKER = true) raw_list)).
Proof.
  intros Hc line.
  assert (Hline : Py.startswith line MARKER = false)
    by apply (startswith_space c _ Hc).
  split; [exact Hline|]. split; [|apply marker_lines_filter].
  rewrite !marker_lines_filter, !filter_app, filter_cons.
  rewrite decide_False; [reflexivity|]. rewrite Hline. discriminate.
Qed.

Lemma indented_marker_line_is_excluded_witness :
  let line := String " " " " +:+ MARKER +:+ "COLD ( -- )" in
  Py.startswith (Py.strip line) MARKER = true
  /\ Py.startswith line MARKER = false
  /\ marker_lines ([cold_fl; cold_sl] ++ line :: [cold_sl])
     = marker_lines ([cold_fl; cold_sl] ++ [cold_sl]).
Proof.
  intros line. split; [reflexivity|].
  destruct (indented_marker_line_is_excluded [cold_fl; cold_sl] [cold_sl]
              " " " " "COLD ( -- )" eq_refl) as (H1 & H2 & _).
  split; [exact H1 | exact H2].
Defined.

(** C10: the FORTH WORD column of a row is the first word of the second
    line after the marker, without its first and without its last
    character whatever these two characters are, between two backticks. *)
Theorem forth_word_drops_both_ends (fl sl : string) (st : state)
  (f : Spec.fields) (size : Z) :
  Spec.pair_fields (fl, sl) = Some f ->
  Spec.size_of (labels st) (Spec.name f) = Some size ->
  (exists status_text,
     fst (print_line fl sl st) = inr tt
     /\ stdout (snd (print_line fl sl st))
        = (stdout st
           ++ [ "| " +:+ Spec.name f +:+ " | "
                +:+ ("`" +:+ Spec.remove_first_last (Spec.alias f) +:+ "`")
                +:+ " | " +:+ Spec.source f +:+ " | " +:+ Py.str_int size
                +:+ " | " +:+ status_text +:+ " |" ])%list)
  /\ (forall c d mid,
        Spec.alias f = String c (mid +:+ String d EmptyString) ->
        Spec.remove_first_last (Spec.alias f) = mid).
Proof.
  intros Hf Hs. split.
  - exists (Spec.status_column (Spec.status f)).
    rewrite (print_line_row fl sl st f size Hf Hs).
    cbn [fst snd after_row stdout]. split; [reflexivity|].
    unfold Spec.row_text. rewrite !append_assoc. reflexivity.
  - intros c d mid ->. cbn [Spec.remove_first_last]. apply remove_last_snoc.
Qed.

Lemma forth_word_drops_both_ends_witness :
  exists status_text,
    stdout (snd (print_line "; ## DUP ( u -- u u )" "; ## <dup> coded ANS core"
                   (table_start (<["z_dup" := 10]> (<["xt_dup" := 4]> ∅)))))
    = (Spec.intro_lines ++ Spec.header_lines
       ++ ["| DUP | `dup` | ANS core | 6 | " +:+ status_text +:+ " |"])%list.
Proof.
  destruct (forth_word_drops_both_ends
              "; ## DUP ( u -- u u )" "; ## <dup> coded ANS core"
              (table_start (<["z_dup" := 10]> (<["xt_dup" := 4]> ∅)))
              (Spec.Fields "DUP" "<dup>" "coded" "ANS core") 6)
    as [(status_text & _ & Hout) _]; try (vm_compute; reflexivity).
  exists status_text. rewrite Hout.
  unfold table_start. cbn [stdout]. rewrite <- app_assoc. reflexivity.
Defined.

(** ** The loader, line by line *)

Lemma get_sizes_line_ok (line : string) (st : state) :
  line_ok line = true ->
  get_sizes_line line st
  = (inr tt, with_labels st (load_line (labels st) line)).
Proof.
  unfold line_ok, load_line, line_entry, address_field, Spec.label_field,
    get_sizes_line, bind, getitem, with_labels.
  destruct (Py.split line) as [|w0 [|w1 [|label ws]]]; cbn; try discriminate.
  unfold Spec.word_label.
  destruct (Py.startswith label "xt_"), (Py.startswith label "z_"); cbn;
    try (destruct (Py.int16 (Py.replace "$" "0x" w0)); cbn;
         [reflexivity|discriminate]).
  intros _. destruct (Py.int16 (Py.replace "$" "0x" w0)); now destruct st.
Qed.

Lemma get_sizes_line_bad (line : string) (st : state) :
  line_ok line = false ->
  exists e, get_sizes_line line st = (inl e, st)
            /\ (e = IndexError \/ e = ValueError).
Proof.
  unfold line_ok, address_field, Spec.label_field,
    get_sizes_line, bind, getitem.
  destruct (Py.split line) as [|w0 [|w1 [|label ws]]]; cbn;
    try (intros _; exists IndexError; split; [reflexivity|now left]).
  unfold Spec.word_label.
  destruct (Py.startswith label "xt_"), (Py.startswith label "z_"); cbn;
    try discriminate;
    (destruct (Py.int16 (Py.replace "$" "0x" w0)); [discriminate|];
     intros _; exists ValueError; split; [reflexivity|now right]).
Qed.

Lemma get_sizes_loop_ok (raw_list : list string) (st : state) :
  forallb line_ok raw_list = true ->
  for_each get_sizes_line raw_list st
  = (inr tt, with_labels st (fold_left load_line raw_list (labels st))).
Proof.
  revert st. induction raw_list as [|line l IH]; intros st H.
  - cbn. now destruct st.
  - cbn [forallb] in H. apply andb_true_iff in H as [Hl Hrest].
    cbn [for_each fold_left]. unfold bind.
    rewrite (get_sizes_line_ok line st Hl), (IH _ Hrest). reflexivity.
Qed.

Lemma get_sizes_loop_bad (raw_list : list string) (st : state) :
  forallb line_ok raw_list = false ->
  exists e, fst (for_each get_sizes_line raw_list st) = inl e
            /\ (e = IndexError \/ e = ValueError).
Proof.
  revert st. induction raw_list as [|line l IH]; intros st H;
    [discriminate|].
  cbn [forallb] in H. cbn [for_each]. unfold bind.
  destruct (line_ok line) eqn:Hl.
  - rewrite (get_sizes_line_ok line st Hl). apply IH. exact H.
  - destruct (get_sizes_line_bad line st Hl) as (e & -> & He).
    exists e. split; [reflexivity|exact He].
Qed.

(** What [get_sizes] does, in every case. *)
Lemma get_sizes_cases (fs : filesystem) (st : state) :
  match fs LABELS with
  | None => get_sizes fs st = (inl (FileNotFoundError LABELS), st)
  | Some content =>
      if forallb line_ok (Py.readlines content)
      then get_sizes fs st
           = (inr (fold_left load_line (Py.readlines content) (labels st)),
              with_labels st
                (fold_left load_line (Py.readlines content) (labels st)))
      else exists e, fst (get_sizes fs st) = inl e
                     /\ (e = IndexError \/ e = ValueError)
  end.
Proof.
  unfold get_sizes, open_readlines, bind.
  destruct (fs LABELS) as [content|]; [|reflexivity].
  unfold ret. cbv beta iota.
  destruct (forallb line_ok (Py.readlines content)) eqn:Hok.
  - rewrite (get_sizes_loop_ok _ st Hok). reflexivity.
  - destruct (get_sizes_loop_bad _ st Hok) as (e & He & Hwhich).
    exists e. split; [|exact Hwhich].
    revert He.
    generalize (for_each get_sizes_line (Py.readlines content) st).
    intros [[e'|[]] st1]; cbn; [|discriminate].
    intros H. now inversion H.
Qed.

(** The address that the dictionary holds for a key after some lines is
    the one of the last line that has an entry for the key, or the one it
    held before when no line has. *)
Lemma load_lookup (raw_list : list string) :
  forall (m : gmap string Z) (key : string) (addr : Z),
    fold_left load_line raw_list m !! key = Some addr
    <-> (exists pre line post,
           raw_list = (pre ++ line :: post)%list
           /\ line_entry line = Some (key, addr)
           /\ Forall (fun l => entry_key l <> Some key) post)
        \/ (Forall (fun l => entry_key l <> Some key) raw_list
            /\ m !! key = Some addr).
Proof.
  induction raw_list as [|x l IH]; intros m key addr; cbn [fold_left].
  - split.
    + intros H. right. split; [constructor|exact H].
    + intros [(pre & line & post & H & _)|[_ H]]; [|exact H].
      destruct pre; discriminate.
  - rewrite IH. split.
    + intros [(pre & line & post & -> & He & Hpost)|[Hl Hm]].
      * left. exists (x :: pre), line, post. auto.
      * unfold load_line in Hm.
        destruct (line_entry x) as [[k a]|] eqn:Hx.
        -- destruct (decide (k = key)) as [->|Hne].
           ++ rewrite lookup_insert_eq in Hm. inversion Hm; subst a.
              left. exists [], x, l. auto.
           ++ rewrite lookup_insert_ne in Hm by exact Hne.
              right. split; [|exact Hm]. constructor; [|exact Hl].
              unfold entry_key. rewrite Hx. congruence.
        -- right. split; [|exact Hm]. constructor; [|exact Hl].
           unfold entry_key. rewrite Hx. discriminate.
    + intros [(pre & line & post & Heq & He & Hpost)|[Hl Hm]].
      * destruct pre as [|y pre]; cbn [app] in Heq; inversion Heq; subst.
        -- right. split; [exact Hpost|].
           unfold load_line. rewrite He. apply lookup_insert_eq.
        -- left. exists pre, line, post. auto.
      * right. inversion Hl as [|x' l' Hx Hl']; subst. split; [exact Hl'|].
        unfold load_line. unfold entry_key in Hx.
        destruct (line_entry x) as [[k a]|]; [|exact Hm].
        rewrite lookup_insert_ne; [exact Hm|]. congruence.
Qed.

(** ** The row printer and the loop, in every case *)

Lemma append_cons (a : ascii) (s t : string) :
  String a s +:+ t = String a (s +:+ t).
Proof. reflexivity. Qed.

(** [split(maxsplit=k)] gives at most [k + 1] words. *)
Lemma split_go_length (s : string) :
  forall (k : nat) (cur : string),
    (length (Py.split_go (Some k) cur s)
     <= k + 1 + match cur with EmptyString => 0 | _ => 1 end)%nat.
Proof.
  induction s as [|c s IH]; intros k cur.
  - destruct cur; cbn; lia.
  - cbn [Py.split_go]. destruct cur as [|a cur].
    + destruct (Py.isspace c).
      * apply (IH k EmptyString).
      * destruct k as [|k]; [cbn; lia|].
        pose proof (IH k (String c EmptyString)). cbn in *. lia.
    + destruct (Py.isspace c).
      * pose proof (IH k EmptyString). cbn [length] in *. lia.
      * rewrite append_cons.
        pose proof (IH k (String a (cur +:+ String c EmptyString))).
        cbn in *. lia.
Qed.

Lemma size_of_missing (m : gmap string Z) (n : string) :
  Spec.size_of m n = None ->
  exists key, missing_key m (Py.lower n) = Some key /\ m !! key = None.
Proof.
  unfold Spec.size_of, missing_key.
  destruct (m !! ("xt_" +:+ Py.lower n)) eqn:Ex.
  - destruct (m !! ("z_" +:+ Py.lower n)) eqn:Ez; [discriminate|].
    intros _. eauto.
  - intros _. eauto.
Qed.

(** A pair is printed as its row when it has one; otherwise the printer
    raises and leaves the state as it was. *)
Lemma print_line_cases (fl sl : string) (st : state) :
  match Spec.table_row (labels st) (fl, sl) with
  | Some r => print_line fl sl st = (inr tt, after_row st (fl, sl) r)
  | None =>
      exists e, print_line fl sl st = (inl e, st)
                /\ (e = IndexError
                    \/ exists key, e = KeyError key /\ labels st !! key = None)
  end.
Proof.
  unfold Spec.table_row.
  destruct (Spec.pair_fields (fl, sl)) as [f|] eqn:Hf.
  - destruct (Spec.size_of (labels st) (Spec.name f)) as [size|] eqn:Hs.
    + apply (print_line_row fl sl st f size Hf Hs).
    + destruct (size_of_missing _ _ Hs) as (key & Hk & Hnone).
      unfold Spec.pair_fields in Hf. cbn [fst snd] in Hf.
      destruct (Py.split (Py.slice_from 5 fl)) as [|n l1] eqn:H1;
        [discriminate|].
      destruct (Py.split_max 2 (Py.slice_from 5 sl)) as [|a l2] eqn:H2;
        [discriminate|].
      assert (Hn : Spec.name f = n).
      { destruct l2 as [|s [|src [|x l2]]]; try discriminate.
        now inversion Hf. }
      rewrite Hn in Hk.
      exists (KeyError key). split; [|right; eauto].
      apply (print_line_missing fl sl n a key l1 l2 st H1 H2 Hk).
  - unfold Spec.pair_fields in Hf. cbn [fst snd] in Hf.
    unfold print_line. change (String.length MARKER) with 5%nat.
    pose proof (split_go_length (Py.slice_from 5 sl) 2 EmptyString) as Hlen.
    fold (Py.split_max 2 (Py.slice_from 5 sl)) in Hlen.
    destruct (Py.split (Py.slice_from 5 fl)) as [|n l1].
    { exists IndexError. split; [reflexivity|now left]. }
    destruct (Py.split_max 2 (Py.slice_from 5 sl)) as [|a l2].
    { exists IndexError. split; [reflexivity|now left]. }
    unfold bind at 1. cbn [getitem lookup list_lookup]. unfold ret at 1.
    unfold bind at 1. unfold ret at 1.
    unfold bind at 1. rewrite calc_size_spec.
    destruct (labels st !! ("xt_" +:+ Py.lower n)) as [a0|] eqn:Ex;
      [|exists (KeyError ("xt_" +:+ Py.lower n)); split; [reflexivity|eauto]].
    destruct (labels st !! ("z_" +:+ Py.lower n)) as [b0|] eqn:Ez;
      [|exists (KeyError ("z_" +:+ Py.lower n)); split; [reflexivity|eauto]].
    destruct l2 as [|s [|src [|x l2]]].
    + exists IndexError. split; [reflexivity|now left].
    + exists IndexError. split; [reflexivity|now left].
    + discriminate.
    + cbn [length] in Hlen. lia.
Qed.

Lemma mapM_None_split {A B} (f : A -> option B) (l : list A) :
  mapM f l = None ->
  exists good x rest ys,
    l = (good ++ x :: rest)%list /\ mapM f good = Some ys /\ f x = None.
Proof.
  induction l as [|x l IH]; [discriminate|].
  intros H. destruct (f x) as [y|] eqn:Hx.
  - destruct (mapM f l) as [ys|] eqn:Hl.
    + exfalso. assert (Hall : mapM f (x :: l) = Some (y :: ys)).
      { apply mapM_Some. constructor; [exact Hx|]. now apply mapM_Some. }
      congruence.
    + destruct (IH eq_refl) as (good & x' & rest & ys & -> & Hg & Hx').
      exists (x :: good), x', rest, (y :: ys). split; [reflexivity|].
      split; [|exact Hx']. apply mapM_Some.
      constructor; [exact Hx|]. now apply mapM_Some.
  - exists [], x, l, []. auto.
Qed.

(** The loop stops at the first pair without a row, the rows of the pairs
    before it printed and counted. *)
Lemma main_loop_bad (dl : list string) (st : state)
  (good rest : list (string * string)) (p : string * string)
  (rows : list string) :
  Spec.pairs dl = (good ++ p :: rest)%list ->
  mapM (Spec.table_row (labels st)) good = Some rows ->
  Spec.table_row (labels st) p = None ->
  exists e,
    main_loop dl st = (inl e, after_rows st good rows)
    /\ (e = IndexError
        \/ exists key, e = KeyError key /\ labels st !! key = None).
Proof.
  intros Hp Hrows Hbad. apply mapM_Some in Hrows.
  destruct (main_loop_good good rows dl st (p :: rest) Hp Hrows)
    as (dl' & Hdl' & Hloop).
  apply pairs_cons_inv in Hdl' as (dl2 & -> & _).
  pose proof (print_line_cases (fst p) (snd p) (after_rows st good rows)) as Hc.
  cbn [after_rows labels] in Hc. rewrite <- surjective_pairing, Hbad in Hc.
  destruct Hc as (e & He & Hwhich).
  exists e. split; [|exact Hwhich].
  rewrite Hloop. cbn [main_loop]. unfold bind. rewrite He. reflexivity.
Qed.

(** ** A run, in every case *)

Lemma run_no_source (fs : filesystem) :
  fs SOURCE = None ->
  run fs = (inl (FileNotFoundError SOURCE), initial_state).
Proof. intros H. unfold run, main, bind, open_readlines. now rewrite H. Qed.

Lemma run_odd (fs : filesystem) (src : string) :
  fs SOURCE = Some src ->
  Nat.even (Spec.marker_count src) = false ->
  run fs
  = (inl (SystemExit 1),
     {| labels := ∅; not_tested := 0;
        stdout := ["Found odd number of lines, aborting"] |}).
Proof.
  intros Hsrc Hodd. unfold run, main.
  unfold bind at 1. unfold open_readlines. rewrite Hsrc. unfold ret at 1.
  rewrite marker_lines_matched, matched_lines_length.
  unfold bind at 1. rewrite parity_test, Hodd. reflexivity.
Qed.

Lemma run_loader_fails (fs : filesystem) (src : string) (e : exn) :
  fs SOURCE = Some src ->
  Nat.even (Spec.marker_count src) = true ->
  fst (get_sizes fs initial_state) = inl e ->
  run fs = (inl e, snd (get_sizes fs initial_state))
  /\ not_tested (snd (run fs)) = 0 /\ stdout (snd (run fs)) = []
  /\ (e = FileNotFoundError LABELS \/ e = IndexError \/ e = ValueError).
Proof.
  intros Hsrc Heven He.
  assert (Hrun : run fs = (inl e, snd (get_sizes fs initial_state))).
  { unfold run, main.
    unfold bind at 1. unfold open_readlines at 1. rewrite Hsrc. unfold ret at 1.
    rewrite marker_lines_matched, matched_lines_length.
    unfold bind at 1. rewrite parity_test, Heven. cbn [negb]. unfold ret at 1.
    unfold bind at 1.
    destruct (get_sizes fs initial_state) as [[e'|m] st1]; cbn in He;
      [|discriminate].
    inversion He. reflexivity. }
  rewrite Hrun. cbn [snd].
  destruct (get_sizes_frame fs initial_state) as (Hn & Ho & _ & _).
  split; [reflexivity|]. split; [exact Hn|]. split; [exact Ho|].
  pose proof (get_sizes_cases fs initial_state) as Hc.
  destruct (fs LABELS) as [content|].
  - destruct (forallb line_ok (Py.readlines content)).
    + rewrite Hc in He. discriminate.
    + destruct Hc as (e' & He' & Hwhich). rewrite He in He'.
      inversion He'; subst. tauto.
  - rewrite Hc in He. inversion He. now left.
Qed.

Lemma run_bad_pair (fs : filesystem) (src : string) (m : gmap string Z)
  (good rest : list (string * string)) (p : string * string)
  (rows : list string) :
  fs SOURCE = Some src ->
  Nat.even (Spec.marker_count src) = true ->
  fst (get_sizes fs initial_state) = inr m ->
  Spec.pairs (Spec.matched_lines src) = (good ++ p :: rest)%list ->
  mapM (Spec.table_row m) good = Some rows ->
  Spec.table_row m p = None ->
  exists e,
    run fs
    = (inl e,
       {| labels := m; not_tested := Spec.not_tested_count good;
          stdout := (Spec.intro_lines ++ Spec.header_lines ++ rows)%list |})
    /\ (e = IndexError \/ exists key, e = KeyError key /\ m !! key = None).
Proof.
  intros Hsrc Heven Hm Hpairs Hrows Hbad.
  rewrite (run_even fs src m Hsrc Heven Hm).
  destruct (main_loop_bad (Spec.matched_lines src) (table_start m)
              good rest p rows Hpairs Hrows Hbad) as (e & He & Hwhich).
  exists e. split; [|exact Hwhich].
  unfold bind. rewrite He. unfold after_rows, table_start.
  cbn [labels not_tested stdout]. rewrite Z.add_0_l, <- app_assoc.
  reflexivity.
Qed.

(** Every run ends in one of five ways: the source is missing; the marker
    lines are odd in number; the label map does not load; the table is
    printed in full; or a pair without a row stops the table. *)
Lemma run_cases (fs : filesystem) :
  (fs SOURCE = None
   /\ run fs = (inl (FileNotFoundError SOURCE), initial_state))
  \/ (exists src,
        fs SOURCE = Some src
        /\ Nat.even (Spec.marker_count src) = false
        /\ run fs
           = (inl (SystemExit 1),
              {| labels := ∅; not_tested := 0;
                 stdout := ["Found odd number of lines, aborting"] |}))
  \/ (exists src e,
        fs SOURCE = Some src
        /\ Nat.even (Spec.marker_count src) = true
        /\ fst (get_sizes fs initial_state) = inl e
        /\ run fs = (inl e, snd (get_sizes fs initial_state))
        /\ not_tested (snd (run fs)) = 0 /\ stdout (snd (run fs)) = []
        /\ (e = FileNotFoundError LABELS \/ e = IndexError \/ e = ValueError))
  \/ (exists src m rows,
        fs SOURCE = Some src
        /\ Nat.even (Spec.marker_count src) = true
        /\ fst (get_sizes fs initial_state) = inr m
        /\ mapM (Spec.table_row m) (Spec.pairs (Spec.matched_lines src))
           = Some rows
        /\ run fs
           = (inr tt,
              {| labels := m;
                 not_tested :=
                   Spec.not_tested_count (Spec.pairs (Spec.matched_lines src));
                 stdout :=
                   (Spec.intro_lines ++ Spec.header_lines ++ rows
                    ++ Spec.footer_lines (Z.of_nat (length rows))
                         (Spec.not_tested_count
                            (Spec.pairs (Spec.matched_lines src))))%list |})
        /\ (2 * length rows = Spec.marker_count src)%nat)
  \/ (exists src m good p rest rows e,
        fs SOURCE = Some src
        /\ Nat.even (Spec.marker_count src) = true
        /\ fst (get_sizes fs initial_state) = inr m
        /\ Spec.pairs (Spec.matched_lines src) = (good ++ p :: rest)%list
        /\ mapM (Spec.table_row m) good = Some rows
        /\ Spec.table_row m p = None
        /\ run fs
           = (inl e,
              {| labels := m; not_tested := Spec.not_tested_count good;
                 stdout :=
                   (Spec.intro_lines ++ Spec.header_lines ++ rows)%list |})
        /\ (e = IndexError \/ exists key, e = KeyError key /\ m !! key = None)).
Proof.
  destruct (fs SOURCE) as [src|] eqn:Hsrc;
    [|left; split; [reflexivity|now apply run_no_source]].
  right.
  destruct (Nat.even (Spec.marker_count src)) eqn:Heven;
    [|left; exists src; split_and!;
      first [reflexivity | assumption | exact (run_odd fs src Hsrc Heven)]].
  right.
  destruct (fst (get_sizes fs initial_state)) as [e|m] eqn:Hm.
  { left. exists src, e.
    destruct (run_loader_fails fs src e Hsrc Heven Hm) as (H1 & H2 & H3 & H4).
    split_and!; first [reflexivity | assumption]. }
  right.
  destruct (mapM (Spec.table_row m) (Spec.pairs (Spec.matched_lines src)))
    as [rows|] eqn:Hrows.
  - left. exists src, m, rows.
    destruct (run_table fs src m rows Hsrc Heven Hm Hrows) as [H1 H2].
    cbv zeta in H1. split_and!; first [reflexivity | assumption].
  - right.
    destruct (mapM_None_split _ _ Hrows) as (good & p & rest & rows & Hp & Hg & Hb).
    destruct (run_bad_pair fs src m good rest p rows Hsrc Heven Hm Hp Hg Hb)
      as (e & Hrun & Hwhich).
    exists src, m, good, p, rest, rows, e.
    split_and!; first [reflexivity | assumption].
Qed.

(** ** Stripping a marker line *)

Lemma lstrip_keep (p : ascii -> bool) (c : ascii) (s : string) :
  p c = false -> Py.lstrip_by p (String c s) = String c s.
Proof. intros H. cbn [Py.lstrip_by]. now rewrite H. Qed.

Lemma rstrip_keep (p : ascii -> bool) (c : ascii) (s : string) :
  p c = false ->
  Py.rstrip_by p (String c s) = String c (Py.rstrip_by p s).
Proof.
  intros H. cbn [Py.rstrip_by]. rewrite H.
  now destruct (Py.rstrip_by p s).
Qed.

Lemma rstrip_keep_before (p : ascii -> bool) (c : ascii) (s : string) :
  Py.rstrip_by p s <> EmptyString ->
  Py.rstrip_by p (String c s) = String c (Py.rstrip_by p s).
Proof.
  intros H. cbn [Py.rstrip_by]. now destruct (Py.rstrip_by p s).
Qed.

Lemma rstrip_all_space (s : string) :
  all_space s = true -> Py.rstrip_by Py.isspace s = EmptyString.
Proof.
  induction s as [|c s IH]; [reflexivity|].
  cbn [all_space Py.rstrip_by]. intros H.
  apply andb_true_iff in H as [Hc Hs]. now rewrite (IH Hs), Hc.
Qed.

Lemma startswith_split (p : string) :
  forall s, Py.startswith s p = true -> exists rest, s = p +:+ rest.
Proof.
  induction p as [|a p IH]; intros s H.
  - now exists s.
  - destruct s as [|b s]; [discriminate|]. cbn [Py.startswith] in H.
    destruct (Ascii.eqb a b) eqn:E; [|discriminate].
    apply Ascii.eqb_eq in E. subst b.
    destruct (IH s H) as (rest & ->). now exists rest.
Qed.

(** What [strip] leaves of a line that starts with the marker. *)
Lemma strip_marker_line (rest : string) :
  Py.strip (MARKER +:+ rest)
  = "; ##" +:+ Py.rstrip_by Py.isspace (String " " rest).
Proof.
  unfold Py.strip.
  change (MARKER +:+ rest)
    with (String ";" (String " " (String "#" (String "#" (String " " rest))))).
  rewrite lstrip_keep by reflexivity.
  rewrite rstrip_keep by reflexivity.
  rewrite (rstrip_keep_before _ " ").
  - rewrite !rstrip_keep by reflexivity. reflexivity.
  - rewrite rstrip_keep by reflexivity. discriminate.
Qed.

Lemma matched_line_shape (raw : string) :
  Py.startswith raw MARKER = true ->
  Py.strip raw = "; ##" \/ Py.startswith (Py.strip raw) MARKER = true.
Proof.
  intros H. destruct (startswith_split _ _ H) as (rest & ->).
  rewrite strip_marker_line.
  destruct (Py.rstrip_by Py.isspace rest) as [|c r] eqn:Hr.
  - cbn [Py.rstrip_by]. rewrite Hr.
    replace (Py.isspace " ") with true by reflexivity. now left.
  - rewrite rstrip_keep_before by (rewrite Hr; discriminate).
    right. rewrite Hr. vm_compute. reflexivity.
Qed.

(** ** Entries and labels of the lines of the label map *)

Lemma line_entry_iff (line key : string) (addr : Z) :
  line_entry line = Some (key, addr)
  <-> Spec.label_field line = Some key /\ Spec.word_label key = true
      /\ address_field line = Some addr.
Proof.
  unfold line_entry. split.
  - destruct (Spec.label_field line) as [label|]; [|discriminate].
    destruct (address_field line) as [a|]; [|discriminate].
    destruct (Spec.word_label label) eqn:Hw; [|discriminate].
    intros H. inversion H; subst. auto.
  - intros (-> & -> & ->). reflexivity.
Qed.

Lemma entry_key_label (line key : string) :
  line_ok line = true -> Spec.word_label key = true ->
  (entry_key line <> Some key <-> Spec.label_field line <> Some key).
Proof.
  unfold line_ok, entry_key, line_entry. intros Hok Hw.
  destruct (Spec.label_field line) as [label|]; [|discriminate].
  destruct (Spec.word_label label) eqn:Hl.
  - destruct (address_field line) as [a|]; [|discriminate]. reflexivity.
  - split; intros _ H; [|destruct (address_field line); discriminate].
    inversion H; subst. congruence.
Qed.

Lemma line_ok_iff (line : string) :
  line_ok line = true
  <-> exists label,
        Spec.label_field line = Some label
        /\ (Spec.word_label label = true -> is_Some (address_field line)).
Proof.
  unfold line_ok. split.
  - destruct (Spec.label_field line) as [label|]; [|discriminate].
    intros H. exists label. split; [reflexivity|]. intros Hw.
    rewrite Hw in H. destruct (address_field line); [eauto|discriminate].
  - intros (label & -> & H).
    destruct (Spec.word_label label); [|reflexivity].
    destruct (H eq_refl) as [a ->]. reflexivity.
Qed.

Lemma not_tested_count_bounds (ps : list (string * string)) :
  0 <= Spec.not_tested_count ps <= Z.of_nat (length ps).
Proof.
  unfold Spec.not_tested_count.
  pose proof (length_filter (fun p => Spec.counts_as_not_tested p = true) ps).
  lia.
Qed.

(** ** Further properties of the script *)

(** X1: [print_line] either prints one row or changes nothing.  With a
    name, the three fields of the second line and both symbols, it returns,
    the output has grown by exactly the one row of the pair, the counter
    by one unless the status is [tested], and nothing else has changed.  It
    returns in no other case: otherwise it raises an index error or the key
    error of a symbol that is not in the dictionary, and the state is what
    it was before: no row, no count.  It never touches the dictionary. *)
Theorem print_line_prints_a_row_or_nothing (fl sl : string) (st : state) :
  (forall f size,
     Spec.pair_fields (fl, sl) = Some f ->
     Spec.size_of (labels st) (Spec.name f) = Some size ->
     print_line fl sl st
     = (inr tt,
        {| labels := labels st;
           not_tested :=
             not_tested st
             + (if String.eqb (Spec.status f) "tested" then 0 else 1);
           stdout :=
             (stdout st
              ++ [ "| " +:+ Spec.name f +:+ " | `"
                   +:+ Spec.remove_first_last (Spec.alias f) +:+ "` | "
                   +:+ Spec.source f +:+ " | " +:+ Py.str_int size +:+ " | "
                   +:+ (if String.eqb (Spec.status f) "tested"
                        then "**tested**" else Spec.status f)
                   +:+ " |" ])%list |}))
  /\ (fst (print_line fl sl st) = inr tt
      <-> exists f size,
            Spec.pair_fields (fl, sl) = Some f
            /\ Spec.size_of (labels st) (Spec.name f) = Some size)
  /\ (forall e,
        fst (print_line fl sl st) = inl e ->
        snd (print_line fl sl st) = st
        /\ (e = IndexError
            \/ exists key, e = KeyError key /\ labels st !! key = None))
  /\ labels (snd (print_line fl sl st)) = labels st.
Proof.
  assert (Hprint : forall f size,
             Spec.pair_fields (fl, sl) = Some f ->
             Spec.size_of (labels st) (Spec.name f) = Some size ->
             print_line fl sl st
             = (inr tt,
                {| labels := labels st;
                   not_tested :=
                     not_tested st
                     + (if String.eqb (Spec.status f) "tested" then 0 else 1);
                   stdout :=
                     (stdout st
                      ++ [ "| " +:+ Spec.name f +:+ " | `"
                           +:+ Spec.remove_first_last (Spec.alias f) +:+ "` | "
                           +:+ Spec.source f +:+ " | " +:+ Py.str_int size
                           +:+ " | "
                           +:+ (if String.eqb (Spec.status f) "tested"
                                then "**tested**" else Spec.status f)
                           +:+ " |" ])%list |})).
  { intros f size Hf Hs. rewrite (print_line_row fl sl st f size Hf Hs).
    unfold after_row, Spec.counts_as_not_tested. rewrite Hf.
    destruct (String.eqb (Spec.status f) "tested") eqn:E;
      unfold Spec.row_text, Spec.status_column; rewrite E; reflexivity. }
  split; [exact Hprint|].
  pose proof (print_line_cases fl sl st) as Hc.
  unfold Spec.table_row in Hc.
  destruct (Spec.pair_fields (fl, sl)) as [f|] eqn:Hf.
  - destruct (Spec.size_of (labels st) (Spec.name f)) as [size|] eqn:Hs.
    + rewrite Hc. cbn [fst snd after_row labels].
      split; [split; eauto|]. split; [discriminate|reflexivity].
    + destruct Hc as (e & -> & Hwhich). cbn [fst snd].
      split.
      { split; [discriminate|].
        intros (f' & size & Hf' & Hs'). inversion Hf'; subst f'. congruence. }
      split; [|reflexivity]. intros e' H. inversion H; subst. auto.
  - destruct Hc as (e & -> & Hwhich). cbn [fst snd].
    split.
    { split; [discriminate|]. intros (f' & size & Hf' & _). discriminate. }
    split; [|reflexivity]. intros e' H. inversion H; subst. auto.
Qed.

(** X2: a run returns normally exactly when the source is there, its
    marker lines are even in number, the label map loads, and every pair
    has a row. *)
Theorem run_succeeds_iff_well_formed (fs : filesystem) :
  fst (run fs) = inr tt
  <-> exists src m rows,
        fs SOURCE = Some src
        /\ Nat.even (Spec.marker_count src) = true
        /\ fst (get_sizes fs initial_state) = inr m
        /\ mapM (Spec.table_row m) (Spec.pairs (Spec.matched_lines src))
           = Some rows.
Proof.
  split.
  - intros Hok.
    destruct (run_cases fs)
      as [[_ H]|[(src & _ & _ & H)|[(src & e & _ & _ & _ & H & _)
         |[(src & m & rows & H1 & H2 & H3 & H4 & _)
          |(src & m & good & p & rest & rows & e & _ & _ & _ & _ & _ & _ & H & _)]]]];
      try (rewrite H in Hok; discriminate).
    exists src, m, rows. auto.
  - intros (src & m & rows & H1 & H2 & H3 & H4).
    destruct (run_table fs src m rows H1 H2 H3 H4) as [-> _]. reflexivity.
Qed.

(** X3: the run ends through [sys.exit] exactly when the source is there
    and its marker lines are odd in number, and the exit status is then 1;
    no other failure of the script is an exit. *)
Theorem exit_iff_odd_marker_count (fs : filesystem) (code : Z) :
  fst (run fs) = inl (SystemExit code)
  <-> code = 1
      /\ exists src, fs SOURCE = Some src
                     /\ Nat.odd (Spec.marker_count src) = true.
Proof.
  split.
  - intros Hexit.
    destruct (run_cases fs)
      as [[_ H]|[(src & Hsrc & Hodd & H)|[(src & e & _ & _ & _ & H & _ & _ & He)
         |[(src & m & rows & _ & _ & _ & _ & H & _)
          |(src & m & good & p & rest & rows & e & _ & _ & _ & _ & _ & _ & H & He)]]]];
      rewrite H in Hexit; cbn [fst] in Hexit; try discriminate.
    + inversion Hexit; subst. split; [reflexivity|]. exists src.
      split; [exact Hsrc|]. now rewrite <- Nat.negb_even, Hodd.
    + inversion Hexit; subst.
      destruct He as [He|[He|He]]; discriminate.
    + inversion Hexit; subst.
      destruct He as [He|(key & He & _)]; discriminate.
  - intros (-> & src & Hsrc & Hodd).
    rewrite (run_odd fs src Hsrc); [reflexivity|].
    now rewrite <- Nat.negb_odd, Hodd.
Qed.

(** X4: the label map is read before anything is printed.  When it does
    not load (the file is missing, a line has fewer than three words, or
    the address of a word label is not a hexadecimal number) the run ends
    with that exception and with nothing on the output. *)
Theorem loader_failure_prints_nothing (fs : filesystem) (src : string)
  (e : exn) :
  fs SOURCE = Some src ->
  Nat.even (Spec.marker_count src) = true ->
  fst (get_sizes fs initial_state) = inl e ->
  fst (run fs) = inl e
  /\ stdout (snd (run fs)) = []
  /\ (e = FileNotFoundError LABELS \/ e = IndexError \/ e = ValueError).
Proof.
  intros Hsrc Heven He.
  destruct (run_loader_fails fs src e Hsrc Heven He) as (H1 & _ & H3 & H4).
  split; [now rewrite H1|]. split; [exact H3|exact H4].
Qed.

Lemma loader_failure_prints_nothing_witness :
  fst (run (fs_of two_words_source "$03G0 | xt_cold | definitions.asm:90"))
  = inl ValueError
  /\ stdout (snd (run (fs_of two_words_source
                         "$03G0 | xt_cold | definitions.asm:90"))) = []
  /\ (ValueError = FileNotFoundError LABELS \/ ValueError = IndexError
      \/ ValueError = ValueError).
Proof.
  apply (loader_failure_prints_nothing _ two_words_source);
    vm_compute; reflexivity.
Defined.

(** X5: in a run that returns normally, the number of words reported as
    not tested lies between zero and the number of words, which is half
    the number of marker lines. *)
Theorem not_tested_at_most_words (fs : filesystem) (src : string) :
  fs SOURCE = Some src ->
  fst (run fs) = inr tt ->
  0 <= not_tested (snd (run fs))
  /\ 2 * not_tested (snd (run fs)) <= Z.of_nat (Spec.marker_count src).
Proof.
  intros Hsrc Hok.
  destruct (run_cases fs)
    as [[_ H]|[(src' & _ & _ & H)|[(src' & e & _ & _ & _ & H & _)
       |[(src' & m & rows & H1 & H2 & H3 & H4 & H & Hlen)
        |(src' & m & good & p & rest & rows & e & _ & _ & _ & _ & _ & _ & H & _)]]]];
    try (rewrite H in Hok; discriminate).
  rewrite Hsrc in H1. inversion H1; subst src'.
  rewrite H. cbn [snd not_tested].
  pose proof (not_tested_count_bounds (Spec.pairs (Spec.matched_lines src)))
    as Hb.
  apply mapM_Some, Forall2_length in H4. lia.
Qed.

Lemma not_tested_at_most_words_witness :
  0 <= not_tested (snd (run (fs_of two_words_source two_words_labels)))
  /\ 2 * not_tested (snd (run (fs_of two_words_source two_words_labels)))
     <= Z.of_nat (Spec.marker_count two_words_source).
Proof.
  apply (not_tested_at_most_words _ two_words_source); vm_compute; reflexivity.
Defined.

(** X6: only the marker lines of the source count, and of them only the
    stripped text: two sources with the same stripped marker lines give the
    same run, whatever stands between these lines and whatever whitespace
    ends them. *)
Theorem report_ignores_unmarked_lines (fs1 fs2 : filesystem)
  (src1 src2 : string) :
  fs1 SOURCE = Some src1 ->
  fs2 SOURCE = Some src2 ->
  fs1 LABELS = fs2 LABELS ->
  map Py.strip
    (filter (fun l => Py.startswith l MARKER = true) (Py.readlines src1))
  = map Py.strip
      (filter (fun l => Py.startswith l MARKER = true) (Py.readlines src2)) ->
  run fs1 = run fs2.
Proof.
  intros H1 H2 Hl Hm. unfold run, main, get_sizes, open_readlines.
  rewrite H1, H2, Hl. unfold bind, ret. cbv beta iota.
  rewrite !marker_lines_filter, Hm. reflexivity.
Qed.

Lemma report_ignores_unmarked_lines_witness :
  run (fs_of two_words_source two_words_labels)
  = run (fs_of (cold_fl +:+ "   " +:+ String Py.LF
                  (cold_sl +:+ String Py.LF
                  ("; ## ABORT ( -- ) " +:+ String Py.dq "Reset the Data Stack"
                   +:+ String Py.dq (String Py.LF
                  ("z_cold:      rts" +:+ String Py.LF
                  ("; ## " +:+ String Py.dq "abort" +:+ String Py.dq
                     "  coded  ANS core")))))) two_words_labels).
Proof.
  apply (report_ignores_unmarked_lines _ _ two_words_source
           (cold_fl +:+ "   " +:+ String Py.LF
              (cold_sl +:+ String Py.LF
              ("; ## ABORT ( -- ) " +:+ String Py.dq "Reset the Data Stack"
               +:+ String Py.dq (String Py.LF
              ("z_cold:      rts" +:+ String Py.LF
              ("; ## " +:+ String Py.dq "abort" +:+ String Py.dq
                 "  coded  ANS core")))))));
    vm_compute; reflexivity.
Defined.

(** X7: after the label map has loaded, the dictionary holds for a key
    exactly the address of the last line whose third word is that key, and
    it holds a key only if the key starts with [xt_] or [z_]: a later line
    for a label replaces an earlier one. *)
Theorem loaded_address_is_on_the_last_line (fs : filesystem)
  (content : string) (m : gmap string Z) (key : string) (addr : Z) :
  fs LABELS = Some content ->
  fst (get_sizes fs initial_state) = inr m ->
  (m !! key = Some addr
   <-> Spec.word_label key = true
       /\ exists pre line post,
            Py.readlines content = (pre ++ line :: post)%list
            /\ Spec.label_field line = Some key
            /\ address_field line = Some addr
            /\ Forall (fun l => Spec.label_field l <> Some key) post).
Proof.
  intros Hfile Hm.
  pose proof (get_sizes_cases fs initial_state) as Hc. rewrite Hfile in Hc.
  destruct (forallb line_ok (Py.readlines content)) eqn:Hok;
    [|destruct Hc as (e & He & _); rewrite He in Hm; discriminate].
  rewrite Hc in Hm. cbn [fst initial_state labels] in Hm.
  inversion Hm; subst m; clear Hm Hc.
  rewrite load_lookup. rewrite forallb_forall in Hok.
  split.
  - intros [(pre & line & post & Heq & He & Hpost)|[_ H]];
      [|rewrite lookup_empty in H; discriminate].
    apply line_entry_iff in He as (Hl & Hw & Ha).
    split; [exact Hw|]. exists pre, line, post.
    split; [exact Heq|]. split; [exact Hl|]. split; [exact Ha|].
    apply Forall_forall. intros l Hin.
    rewrite Forall_forall in Hpost.
    apply (entry_key_label l key); [|exact Hw|now apply Hpost].
    apply Hok. rewrite Heq. apply in_or_app. right. right.
    now apply list_elem_of_In.
  - intros (Hw & pre & line & post & Heq & Hl & Ha & Hpost).
    left. exists pre, line, post. split; [exact Heq|].
    split; [now apply line_entry_iff|].
    apply Forall_forall. intros l Hin.
    rewrite Forall_forall in Hpost.
    apply (entry_key_label l key); [|exact Hw|now apply Hpost].
    apply Hok. rewrite Heq. apply in_or_app. right. right.
    now apply list_elem_of_In.
Qed.

Lemma loaded_address_is_on_the_last_line_witness :
  (<["xt_cold" := 1024]> (<["xt_cold" := 768]> ∅) : gmap string Z)
    !! "xt_cold" = Some 1024.
Proof.
  apply (loaded_address_is_on_the_last_line
           (fs_of cold_source
              ("$0300 | xt_cold | a.asm:1" +:+ String Py.LF
                 "$0400 | xt_cold | b.asm:2"))
           ("$0300 | xt_cold | a.asm:1" +:+ String Py.LF
              "$0400 | xt_cold | b.asm:2")
           (<["xt_cold" := 1024]> (<["xt_cold" := 768]> ∅))
           "xt_cold" 1024);
    try (vm_compute; reflexivity).
  split; [reflexivity|].
  exists ["$0300 | xt_cold | a.asm:1" +:+ String Py.LF EmptyString],
    "$0400 | xt_cold | b.asm:2", [].
  repeat (split; [reflexivity|]). constructor.
Defined.

(** X8: the label map loads exactly when the file is there, every line of
    it has a third word, and every line whose third word starts with [xt_]
    or [z_] has a first word that reads as a hexadecimal number once [$]
    is replaced by [0x]. *)
Theorem loader_succeeds_iff_lines_ok (fs : filesystem) (st : state) :
  (exists m, fst (get_sizes fs st) = inr m)
  <-> exists content,
        fs LABELS = Some content
        /\ Forall
             (fun line =>
                exists label,
                  Spec.label_field line = Some label
                  /\ (Spec.word_label label = true ->
                      is_Some (address_field line)))
             (Py.readlines content).
Proof.
  pose proof (get_sizes_cases fs st) as Hc.
  destruct (fs LABELS) as [content|].
  - destruct (forallb line_ok (Py.readlines content)) eqn:Hok.
    + split; [|intros _; rewrite Hc; eauto].
      intros _. exists content. split; [reflexivity|].
      apply Forall_forall. intros line Hin. apply line_ok_iff.
      rewrite forallb_forall in Hok. apply Hok. now apply list_elem_of_In.
    + destruct Hc as (e & He & _). split.
      * intros [m Hm]. rewrite He in Hm. discriminate.
      * intros (content' & Heq & Hall). inversion Heq; subst content'.
        assert (Htrue : forallb line_ok (Py.readlines content) = true).
        { apply forallb_forall. intros line Hin. apply line_ok_iff.
          rewrite Forall_forall in Hall. apply Hall.
          now apply list_elem_of_In. }
        congruence.
  - rewrite Hc. split.
    + intros [m Hm]. discriminate.
    + intros (content & Heq & _). discriminate.
Qed.

(** X9: a line that holds the marker and then nothing but whitespace is
    taken as a marker line and stripped down to [; ##], which is shorter
    than the marker; as the first line of a pair it makes [print_line]
    raise an index error before anything is looked up or printed. *)
Theorem bare_marker_line_raises (raw sl : string) (st : state) :
  Py.startswith raw MARKER = true ->
  all_space (Py.slice_from (String.length MARKER) raw) = true ->
  marker_lines [raw] = ["; ##"]
  /\ print_line (Py.strip raw) sl st = (inl IndexError, st).
Proof.
  intros Hm Hs. destruct (startswith_split _ _ Hm) as (rest & ->).
  change (Py.slice_from (String.length MARKER) (MARKER +:+ rest)) with rest in Hs.
  assert (Hstrip : Py.strip (MARKER +:+ rest) = "; ##").
  { rewrite strip_marker_line, rstrip_all_space; [reflexivity|].
    cbn [all_space]. now rewrite Hs. }
  split.
  - rewrite marker_lines_filter, filter_cons, decide_True by exact Hm.
    rewrite filter_nil. cbn [map]. now rewrite Hstrip.
  - rewrite Hstrip. reflexivity.
Qed.

Lemma bare_marker_line_raises_witness :
  marker_lines ["; ## " +:+ String Py.LF EmptyString] = ["; ##"]
  /\ print_line (Py.strip ("; ## " +:+ String Py.LF EmptyString)) cold_sl
       (table_start cold_map)
     = (inl IndexError, table_start cold_map).
Proof.
  apply (bare_marker_line_raises ("; ## " +:+ String Py.LF EmptyString));
    reflexivity.
Defined.

(** X10: every line that the extractor keeps is either the bare [; ##]
    or still starts with the whole marker: stripping can take away the
    space that ends the marker, and nothing else of it. *)
Theorem matched_lines_begin_with_marker (raw_list : list string)
  (line : string) :
  In line (marker_lines raw_list) ->
  line = "; ##" \/ Py.startswith line MARKER = true.
Proof.
  rewrite marker_lines_filter.
  induction raw_list as [|raw l IH]; [intros []|].
  rewrite filter_cons.
  destruct (decide (Py.startswith raw MARKER = true)) as [Hm|_];
    [|exact IH].
  cbn [map In]. intros [<-|Hin]; [|now apply IH].
  now apply matched_line_shape.
Qed.

Lemma matched_lines_begin_with_marker_witness :
  cold_sl = "; ##" \/ Py.startswith cold_sl MARKER = true.
Proof.
  apply (matched_lines_begin_with_marker (Py.readlines cold_source)).
  vm_compute. right. left. reflexivity.
Defined.

(** X11: the first pair that has no row stops the table, whatever it
    lacks: a name, a field of its second line or a symbol.  The run ends
    with an index error or with the key error of a missing symbol; the
    introduction, the header and the rows of the pairs before it are on the
    output, the counter holds what these rows added, and no footer is
    printed. *)
Theorem pair_without_row_stops_the_table (fs : filesystem) (src : string)
  (m : gmap string Z) (good rest : list (string * string))
  (p : string * string) (rows : list string) :
  fs SOURCE = Some src ->
  Nat.even (Spec.marker_count src) = true ->
  fst (get_sizes fs initial_state) = inr m ->
  Spec.pairs (Spec.matched_lines src) = (good ++ p :: rest)%list ->
  mapM (Spec.table_row m) good = Some rows ->
  Spec.table_row m p = None ->
  exists e,
    run fs
    = (inl e,
       {| labels := m; not_tested := Spec.not_tested_count good;
          stdout := (Spec.intro_lines ++ Spec.header_lines ++ rows)%list |})
    /\ (e = IndexError \/ exists key, e = KeyError key /\ m !! key = None).
Proof. apply run_bad_pair. Qed.

Lemma pair_without_row_stops_the_table_witness :
  exists e,
    run (fs_of (cold_source +:+ "; ## DROP" +:+ String Py.LF "; ## <drop>")
           two_words_labels)
    = (inl e,
       {| labels := two_words_map;
          not_tested := Spec.not_tested_count [(cold_fl, cold_sl)];
          stdout := (Spec.intro_lines ++ Spec.header_lines
                     ++ [cold_row])%list |})
    /\ (e = IndexError
        \/ exists key, e = KeyError key /\ two_words_map !! key = None).
Proof.
  apply (pair_without_row_stops_the_table
           (fs_of (cold_source +:+ "; ## DROP" +:+ String Py.LF "; ## <drop>")
              two_words_labels)
           (cold_source +:+ "; ## DROP" +:+ String Py.LF "; ## <drop>")
           two_words_map [(cold_fl, cold_sl)] [] ("; ## DROP", "; ## <drop>")
           [cold_row]);
    vm_compute; reflexivity.
Defined.

(** X12: however a run ends, the dictionary holds only labels that start
    with [xt_] or with [z_]: the loader adds no other label, and nothing
    after the loader changes the dictionary. *)
Theorem run_keeps_only_word_labels (fs : filesystem) (key : string)
  (addr : Z) :
  labels (snd (run fs)) !! key = Some addr ->
  Py.startswith key "xt_" = true \/ Py.startswith key "z_" = true.
Proof.
  intros Hkey.
  assert (Hinv : only_word_labels (labels (snd (run fs)))).
  { destruct (get_sizes_frame fs initial_state) as (_ & _ & Hload & Hm).
    specialize (Hload only_word_labels_empty).
    destruct (run_cases fs)
      as [[_ H]|[(src & _ & _ & H)|[(src & e & _ & _ & _ & H & _)
         |[(src & m & rows & _ & _ & H3 & _ & H & _)
          |(src & m & good & p & rest & rows & e & _ & _ & H3 & _ & _ & _ & H & _)]]]];
      rewrite H; cbn [snd labels initial_state];
      try exact only_word_labels_empty; try exact Hload;
      now rewrite (Hm m H3). }
  specialize (Hinv key (ex_intro _ addr Hkey)).
  unfold Spec.word_label in Hinv. now apply orb_true_iff in Hinv.
Qed.

Lemma run_keeps_only_word_labels_witness :
  Py.startswith "z_abort" "xt_" = true \/ Py.startswith "z_abort" "z_" = true.
Proof.
  apply (run_keeps_only_word_labels
           (fs_of two_words_source two_words_labels) "z_abort" 792).
  vm_compute. reflexivity.
Defined.

(** X13: no row is ever printed without the introduction and the header
    before it.  The output of a run is empty, or the one line of the abort
    on an odd number of marker lines, or it starts with the introduction
    and the header. *)
Theorem output_starts_with_the_header (fs : filesystem) :
  stdout (snd (run fs)) = []
  \/ stdout (snd (run fs)) = ["Found odd number of lines, aborting"]
  \/ exists rest,
       stdout (snd (run fs))
       = (Spec.intro_lines ++ Spec.header_lines ++ rest)%list.
Proof.
  destruct (run_cases fs)
    as [[_ H]|[(src & _ & _ & H)|[(src & e & _ & _ & _ & _ & _ & H & _)
       |[(src & m & rows & _ & _ & _ & _ & H & _)
        |(src & m & good & p & rest & rows & e & _ & _ & _ & _ & _ & _ & H & _)]]]].
  - left. now rewrite H.
  - right. left. now rewrite H.
  - left. exact H.
  - right. right. rewrite H. cbn [snd stdout]. eauto.
  - right. right. rewrite H. cbn [snd stdout]. eauto.
Qed.

(** ** Cutting a line into words *)

Lemma append_nil_r (s : string) : s +:+ EmptyString = s.
Proof.
  induction s as [|c s IH]; [reflexivity|].
  rewrite append_cons. now rewrite IH.
Qed.

(** Inside a word, the characters of the word are added to it. *)
Lemma split_go_in_word (w : string) :
  forall (mc : option nat) (b : ascii) (cur s : string),
    no_space w = true ->
    Py.split_go mc (String b cur) (w +:+ s)
    = Py.split_go mc (String b cur +:+ w) s.
Proof.
  induction w as [|a w IH]; intros mc b cur s Hw.
  - now rewrite append_nil_r.
  - cbn [no_space] in Hw. apply andb_true_iff in Hw as [Ha Hw].
    apply negb_true_iff in Ha.
    rewrite (append_cons a w s). cbn [Py.split_go]. rewrite Ha.
    rewrite (append_cons b cur (String a EmptyString)).
    rewrite (IH mc b (cur +:+ String a EmptyString) s Hw).
    f_equal. rewrite !append_cons. f_equal.
    rewrite append_assoc. reflexivity.
Qed.

(** Whitespace ends the word that is being read. *)
Lemma split_go_end_of_word (mc : option nat) (b c : ascii) (cur s : string) :
  Py.isspace c = true ->
  Py.split_go mc (String b cur) (String c s)
  = String b cur :: Py.split_go mc EmptyString s.
Proof. intros Hc. cbn [Py.split_go]. now rewrite Hc. Qed.

(** Whitespace between words is passed over. *)
Lemma split_go_skip (ws : string) :
  forall (mc : option nat) (s : string),
    all_space ws = true ->
    Py.split_go mc EmptyString (ws +:+ s) = Py.split_go mc EmptyString s.
Proof.
  induction ws as [|c ws IH]; intros mc s H; [reflexivity|].
  cbn [all_space] in H. apply andb_true_iff in H as [Hc Hws].
  rewrite append_cons. cbn [Py.split_go]. rewrite Hc. now apply IH.
Qed.

(** A word followed by whitespace is cut off, when a cut is left. *)
Lemma split_go_word (w sep s : string) (mc mc' : option nat) :
  is_word w = true ->
  all_space sep = true -> sep <> EmptyString ->
  (mc = None /\ mc' = None
   \/ exists k, mc = Some (S k) /\ mc' = Some k) ->
  Py.split_go mc EmptyString (w +:+ sep +:+ s)
  = w :: Py.split_go mc' EmptyString s.
Proof.
  intros Hw Hsep Hne Hmc.
  destruct w as [|a w]; [discriminate|]. cbn [is_word no_space] in Hw.
  apply andb_true_iff in Hw as [Ha Hw]. apply negb_true_iff in Ha.
  destruct sep as [|c sep]; [congruence|]. cbn [all_space] in Hsep.
  apply andb_true_iff in Hsep as [Hc Hsep].
  rewrite (append_cons a w). cbn [Py.split_go]. rewrite Ha.
  assert (Hrest : forall o,
             Py.split_go o (String a EmptyString)
               (w +:+ String c sep +:+ s)
             = String a w :: Py.split_go o EmptyString s).
  { intros o. rewrite (split_go_in_word w o a EmptyString _ Hw).
    rewrite (append_cons c sep s).
    rewrite (append_cons a EmptyString w).
    rewrite (split_go_end_of_word o a c _ _ Hc).
    change (EmptyString +:+ w) with w.
    now rewrite (split_go_skip sep o s Hsep). }
  destruct Hmc as [[-> ->]|(k & -> & ->)]; apply Hrest.
Qed.

(** With no cut left, the rest of the line is the last element. *)
Lemma split_go_rest (s : string) :
  starts_with_text s = true ->
  Py.split_go (Some O) EmptyString s = [s].
Proof.
  destruct s as [|c s]; [discriminate|]. cbn [starts_with_text].
  intros H. apply negb_true_iff in H. cbn [Py.split_go]. now rewrite H.
Qed.

(** X14: a pair written in the format of the header comments is read back
    field by field.  When the first line is the marker, the name and then
    whitespace, and the second line is the marker, the alias, the status
    and the source with whitespace between them, the three fields are the
    alias, the status and the source with all that it holds, inner spaces
    included; with both symbols in the dictionary the row shows them. *)
Theorem documented_pair_is_read_back (n a s src sep0 sep1 sep2 tail : string)
  (st : state) (size : Z) :
  is_word n = true -> is_word a = true -> is_word s = true ->
  starts_with_text src = true ->
  all_space sep0 = true -> sep0 <> EmptyString ->
  all_space sep1 = true -> sep1 <> EmptyString ->
  all_space sep2 = true -> sep2 <> EmptyString ->
  Spec.size_of (labels st) n = Some size ->
  let fl := MARKER +:+ n +:+ sep0 +:+ tail in
  let sl := MARKER +:+ a +:+ sep1 +:+ s +:+ sep2 +:+ src in
  Py.split_max 2 (Py.slice_from (String.length MARKER) sl) = [a; s; src]
  /\ print_line fl sl st
     = (inr tt,
        {| labels := labels st;
           not_tested :=
             not_tested st + (if String.eqb s "tested" then 0 else 1);
           stdout :=
             (stdout st
              ++ [ "| " +:+ n +:+ " | `" +:+ Spec.remove_first_last a
                   +:+ "` | " +:+ src +:+ " | " +:+ Py.str_int size
                   +:+ " | "
                   +:+ (if String.eqb s "tested" then "**tested**" else s)
                   +:+ " |" ])%list |}).
Proof.
  intros Hn Ha Hs Hsrc H0 N0 H1 N1 H2 N2 Hsize fl sl.
  assert (Hl1 : Py.split (Py.slice_from 5 fl)
                = n :: Py.split_go None EmptyString tail).
  { change (Py.slice_from 5 fl) with (n +:+ sep0 +:+ tail).
    apply split_go_word; auto. }
  assert (Hl2 : Py.split_max 2 (Py.slice_from 5 sl) = [a; s; src]).
  { change (Py.slice_from 5 sl) with (a +:+ sep1 +:+ s +:+ sep2 +:+ src).
    unfold Py.split_max.
    rewrite (split_go_word a sep1 _ (Some 2%nat) (Some 1%nat)); eauto.
    rewrite (split_go_word s sep2 _ (Some 1%nat) (Some O)); eauto.
    now rewrite split_go_rest. }
  split; [exact Hl2|].
  assert (Hf : Spec.pair_fields (fl, sl) = Some (Spec.Fields n a s src)).
  { unfold Spec.pair_fields. cbn [fst snd]. now rewrite Hl1, Hl2. }
  rewrite (print_line_row fl sl st _ size Hf Hsize).
  unfold after_row, Spec.counts_as_not_tested, Spec.row_text,
    Spec.status_column.
  rewrite Hf. cbn [Spec.name Spec.alias Spec.status Spec.source].
  destruct (String.eqb s "tested"); reflexivity.
Qed.

Lemma documented_pair_is_read_back_witness :
  Py.split_max 2 (Py.slice_from (String.length MARKER) cold_sl)
  = [String Py.dq "cold" +:+ String Py.dq EmptyString; "tested"; "Tali Forth"]
  /\ print_line cold_fl cold_sl (table_start cold_map)
     = (inr tt,
        {| labels := cold_map; not_tested := 0;
           stdout := (Spec.intro_lines ++ Spec.header_lines
                      ++ [cold_row])%list |}).
Proof.
  destruct (documented_pair_is_read_back
              "COLD" (String Py.dq "cold" +:+ String Py.dq EmptyString)
              "tested" "Tali Forth" " " "  " "  "
              ("( -- ) " +:+ String Py.dq "Reset the Forth system"
               +:+ String Py.dq EmptyString)
              (table_start cold_map) 16) as [H1 H2];
    try reflexivity; try discriminate.
  split; [exact H1|].
  etransitivity; [exact H2|]. vm_compute. reflexivity.
Defined.

(** ** Addresses of the label map *)

Lemma int_isspace_isspace (c : ascii) :
  Py.int_isspace c = true -> Py.isspace c = true.
Proof.
  destruct c as [[] [] [] [] [] [] [] []]; vm_compute; intros H;
    first [reflexivity | discriminate H].
Qed.

Lemma rstrip_no_space (s : string) :
  no_space s = true -> Py.rstrip_by Py.int_isspace s = s.
Proof.
  induction s as [|c s IH]; [reflexivity|].
  cbn [no_space]. intros H. apply andb_true_iff in H as [Hc Hs].
  apply negb_true_iff in Hc.
  rewrite rstrip_keep, (IH Hs); [reflexivity|].
  destruct (Py.int_isspace c) eqn:E; [|reflexivity].
  apply int_isspace_isspace in E. congruence.
Qed.

Lemma replace_hit (old : ascii) (new s : string) :
  Py.replace old new (String old s) = new +:+ Py.replace old new s.
Proof. cbn [Py.replace]. now rewrite Ascii.eqb_refl. Qed.

Lemma replace_keep (old c : ascii) (new s : string) :
  Ascii.eqb c old = false ->
  Py.replace old new (String c s) = String c (Py.replace old new s).
Proof. intros H. cbn [Py.replace]. now rewrite H. Qed.

Lemma int_digits_step (c : ascii) (d acc : Z) (s : string) :
  Ascii.eqb c "_" = false -> Py.digit_value c = Some d -> d < 16 ->
  Py.int_digits 16 false acc (String c s)
  = Py.int_digits 16 false (acc * 16 + d) s.
Proof.
  intros Hu Hd Hlt. cbn [Py.int_digits]. rewrite Hu, Hd.
  now replace (d <? 16) with true by (symmetry; apply Z.ltb_lt; exact Hlt).
Qed.

(** [int] on a literal that starts with [0x] and a digit. *)
Lemma int16_0x (c : ascii) (r : string) :
  no_space (String c r) = true -> Ascii.eqb c "_" = false ->
  Py.int16 (String "0" (String "x" (String c r)))
  = option_map (Z.mul 1) (Py.int_digits 16 false 0 (String c r)).
Proof.
  intros Hns Hu. unfold Py.int16.
  rewrite lstrip_keep by reflexivity.
  rewrite !rstrip_keep by reflexivity.
  rewrite (rstrip_no_space _ Hns). clear Hns.
  destruct c as [[] [] [] [] [] [] [] []];
    first [discriminate Hu | reflexivity].
Qed.

Lemma hex_digit_facts (upper : bool) (d : Z) :
  0 <= d < 16 ->
  Py.isspace (hex_digit upper d) = false
  /\ Ascii.eqb (hex_digit upper d) "$" = false
  /\ Ascii.eqb (hex_digit upper d) "_" = false
  /\ Py.digit_value (hex_digit upper d) = Some d.
Proof.
  intros Hd.
  assert (Hcases : d = 0 \/ d = 1 \/ d = 2 \/ d = 3 \/ d = 4 \/ d = 5
                   \/ d = 6 \/ d = 7 \/ d = 8 \/ d = 9 \/ d = 10
                   \/ d = 11 \/ d = 12 \/ d = 13 \/ d = 14 \/ d = 15)
    by lia.
  repeat (destruct Hcases as [->|Hcases]); try subst d;
    destruct upper; vm_compute; repeat split; reflexivity.
Qed.

(** An address of four hexadecimal digits is one word, and the loader
    reads it as the number that the digits write. *)
Lemma addresses_read_back (upper : bool) (n : Z) :
  0 <= n < 65536 ->
  is_word (hex4 upper n) = true
  /\ Py.int16 (Py.replace "$" "0x" (hex4 upper n)) = Some n.
Proof.
  intros Hn.
  assert (H3 : 0 <= n / 4096 < 16) by (Z.div_mod_to_equations; lia).
  assert (H2 : 0 <= n / 256 mod 16 < 16) by (Z.div_mod_to_equations; lia).
  assert (H1 : 0 <= n / 16 mod 16 < 16) by (Z.div_mod_to_equations; lia).
  assert (H0 : 0 <= n mod 16 < 16) by (Z.div_mod_to_equations; lia).
  destruct (hex_digit_facts upper _ H3) as (S3 & D3 & U3 & V3).
  destruct (hex_digit_facts upper _ H2) as (S2 & D2 & U2 & V2).
  destruct (hex_digit_facts upper _ H1) as (S1 & D1 & U1 & V1).
  destruct (hex_digit_facts upper _ H0) as (S0 & D0 & U0 & V0).
  unfold hex4. split.
  - cbn [is_word no_space]. rewrite S3, S2, S1, S0. reflexivity.
  - rewrite replace_hit, !replace_keep by assumption.
    change (Py.replace "$" "0x" EmptyString) with EmptyString.
    rewrite !append_cons. change (EmptyString +:+ ?x) with x.
    rewrite int16_0x;
      [|cbn [no_space]; rewrite S3, S2, S1, S0; reflexivity|exact U3].
    rewrite (int_digits_step _ _ _ _ U3 V3) by lia.
    rewrite (int_digits_step _ _ _ _ U2 V2) by lia.
    rewrite (int_digits_step _ _ _ _ U1 V1) by lia.
    rewrite (int_digits_step _ _ _ _ U0 V0) by lia.
    cbn [Py.int_digits option_map]. f_equal.
    Z.div_mod_to_equations. lia.
Qed.

(** X15: a line of the label map in the format of the assembler, an
    address of four hexadecimal digits after [$], a bar, a label that
    starts with [xt_] or [z_], a bar and the place in the source, is
    recorded: the dictionary then holds the number that the digits write
    for that label, and nothing else changes. *)
Theorem label_line_is_recorded (upper : bool) (n : Z) (label rest : string)
  (st : state) :
  0 <= n < 65536 ->
  is_word label = true ->
  Spec.word_label label = true ->
  let line := hex4 upper n +:+ " | " +:+ label +:+ " | " +:+ rest in
  get_sizes_line line st
  = (inr tt, with_labels st (<[label := n]> (labels st)))
  /\ labels (snd (get_sizes_line line st)) !! label = Some n.
Proof.
  intros Hn Hlabel Hword line.
  destruct (addresses_read_back upper n Hn) as [Hw0 Hv].
  assert (Hsplit : Py.split line
                   = hex4 upper n :: "|" :: label
                     :: Py.split_go None EmptyString ("| " +:+ rest)).
  { unfold Py.split, line.
    change (hex4 upper n +:+ " | " +:+ label +:+ " | " +:+ rest)
      with (hex4 upper n +:+ " " +:+ "|" +:+ " " +:+ label +:+ " "
            +:+ "| " +:+ rest).
    rewrite (split_go_word (hex4 upper n) " " _ None None);
      [|exact Hw0|reflexivity|discriminate|now left].
    rewrite (split_go_word "|" " " _ None None);
      [|reflexivity|reflexivity|discriminate|now left].
    rewrite (split_go_word label " " _ None None);
      [|exact Hlabel|reflexivity|discriminate|now left].
    reflexivity. }
  assert (Hrun : get_sizes_line line st
                 = (inr tt, with_labels st (<[label := n]> (labels st)))).
  { unfold get_sizes_line. rewrite Hsplit.
    unfold bind at 1. cbn [getitem lookup list_lookup]. unfold ret at 1.
    unfold Spec.word_label in Hword. apply orb_true_iff in Hword.
    replace (negb (Py.startswith label "xt_")
             && negb (Py.startswith label "z_")) with false
      by (destruct Hword as [-> | ->]; cbn;
          [reflexivity | now rewrite andb_false_r]).
    unfold bind at 1. unfold ret at 1. rewrite Hv. reflexivity. }
  split; [exact Hrun|].
  rewrite Hrun. cbn [snd with_labels labels]. apply lookup_insert_eq.
Qed.

Lemma label_line_is_recorded_witness :
  get_sizes_line "$0310 | z_cold | definitions.asm:95" initial_state
  = (inr tt, with_labels initial_state (<["z_cold" := 784]> ∅))
  /\ labels (snd (get_sizes_line "$0310 | z_cold | definitions.asm:95"
                   initial_state)) !! "z_cold" = Some 784.
Proof.
  apply (label_line_is_recorded true 784 "z_cold" "definitions.asm:95"
           initial_state); [lia|reflexivity|reflexivity].
Defined.
